(** * Excel table API: the table segmenter, the cleaner and the row queries

    A shallow embedding of [ExcelProcessor] from [fastapi_excel_app.py]:
    the sheet segmentation heuristic ([identify_tables_in_sheet]), the
    cleaning step ([clean_table]), the table store ([process_tables]) and
    the two row queries ([get_table_row_names], [calculate_row_sum]).

    Conventions of the embedding.
    - A Python [str] is a [string]; its characters are read as code points
      below 256.
    - A cell of a frame is a Python scalar.  [CEmpty] stands for every value
      that [pd.notna] rejects (NaN, None, NaT); the other constructors carry
      values that [pd.notna] accepts.
    - Python's floats, [float(...)] and [str(...)] on non-text values are
      builtins outside the program: they are the fields of [PyValues].
    - A [DataFrame] is its row labels, its column labels and its rows.
      Sheets are read with [header=None], so labels are naturals.  The
      cells are the values of the parsed frame: a column that pandas types
      [object], [bool] or [datetime64] is one that holds a text or a raw
      value, and in a column typed [float64] the numbers are floats.
    - Reading a row ([df.iterrows()]) goes through [df.values], which has
      one dtype for the whole frame: in a frame of numbers only that holds
      a float or a NaN, integers are read as floats.
    - [self] is threaded through the methods by a state and exception
      monad. *)

From Stdlib Require Import String Ascii List Arith Bool Lia ZArith DecimalString Sorted.
From Stdlib Require Import Floats.PrimFloat Floats.SpecFloat Floats.FloatOps.
Import ListNotations.
Local Open Scope string_scope.
Local Open Scope list_scope.
Local Open Scope nat_scope.

(** ** Python strings *)

Module PyStr.

(** [str.isspace] on one character, for code points below 256. *)
Definition is_space (c : ascii) : bool :=
  let n := nat_of_ascii c in
  ((9 <=? n) && (n <=? 13)) || ((28 <=? n) && (n <=? 32))
  || (n =? 133) || (n =? 160).

(** Truth value of a string: non-empty. *)
Definition truthy (s : string) : bool :=
  match s with EmptyString => false | String _ _ => true end.

(** [s.replace(c, '')] for a one-character [c]. *)
Fixpoint remove_char (c : ascii) (s : string) : string :=
  match s with
  | EmptyString => EmptyString
  | String a r =>
      if Ascii.eqb a c then remove_char c r else String a (remove_char c r)
  end.

Fixpoint lstrip (s : string) : string :=
  match s with
  | EmptyString => EmptyString
  | String a r => if is_space a then lstrip r else s
  end.

Fixpoint rstrip (s : string) : string :=
  match s with
  | EmptyString => EmptyString
  | String a r =>
      match rstrip r with
      | EmptyString => if is_space a then EmptyString else String a EmptyString
      | r' => String a r'
      end
  end.

(** [s.strip()] *)
Definition strip (s : string) : string := rstrip (lstrip s).

(** Every character of [s] is whitespace. *)
Fixpoint all_space (s : string) : bool :=
  match s with
  | EmptyString => true
  | String a r => is_space a && all_space r
  end.

End PyStr.

(** ** Python dictionaries, in insertion order *)

Module PyDict.

Definition dict (V : Type) : Type := list (string * V).

Definition empty {V : Type} : dict V := [].

(** [d[k] = v]: an existing key keeps its place, a new one goes last. *)
Fixpoint set {V : Type} (k : string) (v : V) (d : dict V) : dict V :=
  match d with
  | [] => [(k, v)]
  | (k', v') :: d' =>
      if String.eqb k' k then (k', v) :: d' else (k', v') :: set k v d'
  end.

Fixpoint get {V : Type} (k : string) (d : dict V) : option V :=
  match d with
  | [] => None
  | (k', v') :: d' => if String.eqb k' k then Some v' else get k d'
  end.

(** [k in d] *)
Definition mem {V : Type} (k : string) (d : dict V) : bool :=
  match get k d with Some _ => true | None => false end.

Definition items {V : Type} (d : dict V) : list (string * V) := d.
Definition keys {V : Type} (d : dict V) : list string := map fst d.
Definition values {V : Type} (d : dict V) : list V := map snd d.

(** The assignments [d[k] = v] for the pairs of [ws], in order. *)
Definition write_all {V : Type} (ws : list (string * V)) (d : dict V)
  : dict V :=
  fold_left (fun acc kv => set (fst kv) (snd kv) acc) ws d.

(** [d.update(other)] *)
Definition update {V : Type} (d other : dict V) : dict V :=
  write_all (items other) d.

(** The last value a sequence of writes puts under [k]. *)
Fixpoint last_write {V : Type} (k : string) (ws : list (string * V))
  : option V :=
  match ws with
  | [] => None
  | (k', v) :: ws' =>
      match last_write k ws' with
      | Some v' => Some v'
      | None => if String.eqb k' k then Some v else None
      end
  end.

(** Truth value of a dictionary: non-empty. *)
Definition truthy {V : Type} (d : dict V) : bool :=
  match d with [] => false | _ :: _ => true end.

End PyDict.

(** ** Values outside the program *)

Class PyValues : Type := {
  (** numbers as cells hold them (int or float, never NaN) *)
  Num : Type;
  (** other raw cell values (bool, datetime, ...) *)
  Raw : Type;
  (** Python's [float] *)
  pyfloat : Type;
  (** the literal [0.0] *)
  float_zero : pyfloat;
  (** [x + y] on floats *)
  float_add : pyfloat -> pyfloat -> pyfloat;
  (** [float(s)] on a string; [None] when it raises [ValueError] *)
  float_of_str : string -> option pyfloat;
  (** [float(x)] on a number *)
  float_of_num : Num -> pyfloat;
  (** [float(v)] on another value; [None] when it raises [TypeError] or
      [ValueError] *)
  float_of_raw : Raw -> option pyfloat;
  (** [str(x)] on a number *)
  str_of_num : Num -> string;
  (** [str(v)] on another value *)
  str_of_raw : Raw -> string;
  (** is the number a float (rather than an int) *)
  is_float : Num -> bool;
  (** the number as [float64], as [astype] gives it *)
  as_float : Num -> Num
}.

(** ** Cells and frames *)

Section Frames.

Context {PV : PyValues}.

Inductive Cell : Type :=
| CEmpty
| CText (s : string)
| CNum (x : Num)
| CRaw (v : Raw).

(** [pd.notna] on a scalar *)
Definition notna (c : Cell) : bool :=
  match c with CEmpty => false | _ => true end.

(** [isinstance(c, str)] *)
Definition is_str (c : Cell) : bool :=
  match c with CText _ => true | _ => false end.

(** [str(c)] *)
Definition str (c : Cell) : string :=
  match c with
  | CEmpty => "nan"
  | CText s => s
  | CNum x => str_of_num x
  | CRaw v => str_of_raw v
  end.

Definition Row : Type := list Cell.
Definition Grid : Type := list Row.

Record DataFrame : Type := mkDataFrame {
  index : list nat;
  columns : list nat;
  data : Grid
}.

(** The invariant of a frame: one label per row, and every row as long as
    the column labels. *)
Definition wf_frame (df : DataFrame) : Prop :=
  length (index df) = length (data df) /\
  Forall (fun r => length r = length (columns df)) (data df).

(** A value that makes its column, and with it [df.values], [object]. *)
Definition is_object_cell (c : Cell) : bool :=
  match c with CText _ | CRaw _ => true | _ => false end.

(** A value of a [float64] column: NaN or a float. *)
Definition is_float_cell (c : Cell) : bool :=
  match c with
  | CEmpty => true
  | CNum x => is_float x
  | _ => false
  end.

(** A value of a numeric column, read at dtype [float64]. *)
Definition astype_float (c : Cell) : Cell :=
  match c with
  | CNum x => CNum (as_float x)
  | _ => c
  end.

(** [df.values]: the cells at the common dtype of the columns.  With an
    [object] column the values are the stored ones; with [int64] and
    [float64] columns only, the common dtype is [float64] as soon as one
    column is, and every integer is read as a float; with [int64] columns
    only, nothing changes. *)
Definition df_values (df : DataFrame) : Grid :=
  if existsb (existsb is_object_cell) (data df) then data df
  else if existsb (existsb is_float_cell) (data df)
       then map (map astype_float) (data df)
       else data df.

(** [df.iterrows()]: each label with its row of [df.values] *)
Definition iterrows (df : DataFrame) : list (nat * Row) :=
  combine (index df) (df_values df).

(** [df.empty] *)
Definition df_empty (df : DataFrame) : bool :=
  (length (index df) =? 0) || (length (columns df) =? 0).

(** [row.iloc[0] if len(row) > 0 else None] *)
Definition first_cell_of (row : Row) : Cell :=
  match row with
  | [] => CEmpty
  | c :: _ => c
  end.

(** [l[a:b]] and [l[a:]] for non-negative bounds *)
Definition py_slice {A : Type} (a : nat) (b : option nat) (l : list A)
  : list A :=
  match b with
  | Some b => firstn (b - a) (skipn a l)
  | None => skipn a l
  end.

(** [df.iloc[a:b].copy()] and [df.iloc[a:].copy()] *)
Definition iloc_rows (a : nat) (b : option nat) (df : DataFrame)
  : DataFrame :=
  {| index := py_slice a b (index df);
     columns := columns df;
     data := py_slice a b (data df) |}.

(** Keep the entries of [l] whose position is marked in [m]. *)
Fixpoint select {A : Type} (m : list bool) (l : list A) : list A :=
  match m, l with
  | b :: m', x :: l' => if b then x :: select m' l' else select m' l'
  | _, _ => []
  end.

Definition list_or (a b : list bool) : list bool :=
  map (fun p => fst p || snd p) (combine a b).

(** [notna(df).any(axis=1)]: per row, is some cell not NA *)
Definition notna_any_rows (g : Grid) : list bool :=
  map (existsb notna) g.

(** [notna(df).any(axis=0)]: per column, is some cell not NA *)
Definition notna_any_cols (ncols : nat) (g : Grid) : list bool :=
  fold_right (fun r acc => list_or (map notna r) acc) (repeat false ncols) g.

(** [df.dropna(how='all')] *)
Definition dropna_rows (df : DataFrame) : DataFrame :=
  let keep := notna_any_rows (data df) in
  {| index := select keep (index df);
     columns := columns df;
     data := select keep (data df) |}.

(** [df.dropna(axis=1, how='all')] *)
Definition dropna_cols (df : DataFrame) : DataFrame :=
  let keep := notna_any_cols (length (columns df)) (data df) in
  {| index := index df;
     columns := select keep (columns df);
     data := map (select keep) (data df) |}.

(** [df.reset_index(drop=True)] *)
Definition reset_index (df : DataFrame) : DataFrame :=
  {| index := seq 0 (length (index df));
     columns := columns df;
     data := data df |}.

(** [pd.read_excel(..., header=None)] on the cells of one sheet: default
    row and column labels. *)
Definition read_excel (g : Grid) : DataFrame :=
  {| index := seq 0 (length g);
     columns := seq 0 (length (hd [] g));
     data := g |}.

(** All rows of a sheet have the same length. *)
Definition rectangular (g : Grid) : Prop :=
  Forall (fun r => length r = length (hd [] g)) g.

End Frames.

(** ** The processor object and its methods *)

Inductive PyExc : Type :=
| HTTPException (status_code : nat) (detail : string).

Section Processor.

Context {PV : PyValues}.

(** [self]: the sheets as loaded and the table store *)
Record ExcelProcessor : Type := mkExcelProcessor {
  excel_data : PyDict.dict DataFrame;
  tables : PyDict.dict DataFrame
}.

(** A method either returns or raises, and hands [self] on. *)
Definition M (A : Type) : Type :=
  ExcelProcessor -> (PyExc + A) * ExcelProcessor.

Definition ret {A : Type} (a : A) : M A := fun self => (inr a, self).

Definition bind {A B : Type} (m : M A) (k : A -> M B) : M B :=
  fun self =>
    match m self with
    | (inr a, self') => k a self'
    | (inl e, self') => (inl e, self')
    end.

Definition raise {A : Type} (e : PyExc) : M A := fun self => (inl e, self).

Definition get_self : M ExcelProcessor := fun self => (inr self, self).

Definition put_self (s : ExcelProcessor) : M unit := fun _ => (inr tt, s).

Fixpoint for_each {A : Type} (l : list A) (body : A -> M unit) : M unit :=
  match l with
  | [] => ret tt
  | x :: l' => bind (body x) (fun _ => for_each l' body)
  end.

Notation "x <- m ;; k" := (bind m (fun x => k))
  (at level 61, m at next level, right associativity).
Notation "m ;;; k" := (bind m (fun _ => k))
  (at level 61, right associativity).

(** *** [clean_table] *)

Definition clean_table (df : DataFrame) : DataFrame :=
  let df := dropna_cols (dropna_rows df) in
  let df := reset_index df in
  df.

(** *** [identify_tables_in_sheet] *)

(** The locals of the scan. *)
Record ScanState : Type := mkScanState {
  scan_tables : PyDict.dict DataFrame;
  current_table_name : option string;
  current_table_start : option nat
}.

(** [pd.notna(first_cell) and isinstance(first_cell, str)
     and first_cell.strip()] *)
Definition header_test (first_cell : Cell) : bool :=
  notna first_cell && is_str first_cell &&
  match first_cell with
  | CText s => PyStr.truthy (PyStr.strip s)
  | _ => false
  end.

(** [first_cell.strip()] in the branch where the test passed *)
Definition header_name (first_cell : Cell) : string :=
  match first_cell with
  | CText s => PyStr.strip s
  | _ => EmptyString
  end.

(** [if current_table_name and current_table_start is not None:
      tables[current_table_name] = self.clean_table(df.iloc[start:stop].copy())] *)
Definition save_table (df : DataFrame) (st : ScanState) (stop : option nat)
  : PyDict.dict DataFrame :=
  match current_table_name st, current_table_start st with
  | Some name, Some start =>
      if PyStr.truthy name
      then PyDict.set name (clean_table (iloc_rows start stop df))
             (scan_tables st)
      else scan_tables st
  | _, _ => scan_tables st
  end.

(** One turn of [for idx, row in df.iterrows()] *)
Definition scan_row (df : DataFrame) (st : ScanState) (it : nat * Row)
  : ScanState :=
  let (idx, row) := it in
  let first_cell := first_cell_of row in
  if header_test first_cell then
    {| scan_tables := save_table df st (Some idx);
       current_table_name := Some (header_name first_cell);
       current_table_start := Some idx |}
  else st.

Definition identify_tables_in_sheet (df : DataFrame) (sheet_name : string)
  : PyDict.dict DataFrame :=
  let st0 := {| scan_tables := PyDict.empty;
                current_table_name := None;
                current_table_start := None |} in
  let st := fold_left (scan_row df) (iterrows df) st0 in
  let tables := save_table df st None in
  if negb (PyDict.truthy tables) then
    let table_name :=
      if PyStr.truthy sheet_name then ("Sheet_" ++ sheet_name)%string
      else "Default_Table" in
    PyDict.set table_name (clean_table df) tables
  else tables.

(** *** [process_tables] *)

Definition process_tables : M unit :=
  self <- get_self ;;
  put_self {| excel_data := excel_data self; tables := PyDict.empty |} ;;;
  for_each (PyDict.items (excel_data self)) (fun it =>
    let (sheet_name, df) := it in
    let tables_in_sheet := identify_tables_in_sheet df sheet_name in
    self <- get_self ;;
    put_self {| excel_data := excel_data self;
                tables := PyDict.update (tables self) tables_in_sheet |}).

(** *** [load_excel_data], on the sheets of a workbook that was found and
    parsed: [(sheet_name, cells)] in the order of [sheet_names] *)

Definition load_excel_data (workbook : list (string * Grid)) : M unit :=
  for_each workbook (fun it =>
    let (sheet_name, cells) := it in
    let df := read_excel cells in
    self <- get_self ;;
    put_self {| excel_data := PyDict.set sheet_name df (excel_data self);
                tables := tables self |}) ;;;
  process_tables.

(** [ExcelProcessor(file_path)] on such a workbook *)
Definition new_processor (workbook : list (string * Grid))
  : (PyExc + unit) * ExcelProcessor :=
  load_excel_data workbook
    {| excel_data := PyDict.empty; tables := PyDict.empty |}.

(** *** [get_table_names] *)

Definition get_table_names : M (list string) :=
  self <- get_self ;;
  ret (PyDict.keys (tables self)).

(** *** [get_table_row_names] *)

Definition table_not_found (table_name : string) : PyExc :=
  HTTPException 404 ("Table '" ++ table_name ++ "' not found")%string.

Definition row_not_found (row_name table_name : string) : PyExc :=
  HTTPException 404
    ("Row '" ++ row_name ++ "' not found in table '" ++ table_name ++ "'")%string.

(** The loop that collects [str(first_cell)] of the rows whose first cell
    is not NA. *)
Fixpoint collect_row_names (rows : list (nat * Row)) (row_names : list string)
  : list string :=
  match rows with
  | [] => row_names
  | (_, row) :: rest =>
      let first_cell := first_cell_of row in
      if notna first_cell
      then collect_row_names rest (row_names ++ [str first_cell])
      else collect_row_names rest row_names
  end.

Definition get_table_row_names (table_name : string) : M (list string) :=
  self <- get_self ;;
  match PyDict.get table_name (tables self) with
  | None => raise (table_not_found table_name)
  | Some df =>
      if df_empty df then ret []
      else ret (collect_row_names (iterrows df) [])
  end.

(** *** [calculate_row_sum] *)

(** The search loop, left at the first match by [break]. *)
Fixpoint find_target_row (rows : list (nat * Row)) (row_name : string)
  : option Row :=
  match rows with
  | [] => None
  | (_, row) :: rest =>
      let first_cell := first_cell_of row in
      if notna first_cell && String.eqb (str first_cell) row_name
      then Some row
      else find_target_row rest row_name
  end.

(** [value.replace('%', '').replace('$', '').replace(',', '').strip()] *)
Definition clean_value (value : string) : string :=
  PyStr.strip
    (PyStr.remove_char ","
       (PyStr.remove_char "$" (PyStr.remove_char "%" value))).

(** The body of the [try] for one value that is not NA: the amount added
    to the sum, [None] when nothing is added (an empty cleaned string, or
    [ValueError]/[TypeError] caught by the handler). *)
Definition try_float (value : Cell) : option pyfloat :=
  match value with
  | CText s =>
      let clean_value := clean_value s in
      if PyStr.truthy clean_value then float_of_str clean_value else None
  | CNum x => Some (float_of_num x)
  | CRaw v => float_of_raw v
  | CEmpty => None
  end.

(** One turn of [for value in target_row.iloc[1:]] *)
Definition add_value (numerical_sum : pyfloat) (value : Cell) : pyfloat :=
  if notna value then
    match try_float value with
    | Some x => float_add numerical_sum x
    | None => numerical_sum
    end
  else numerical_sum.

Definition calculate_row_sum (table_name row_name : string) : M pyfloat :=
  self <- get_self ;;
  match PyDict.get table_name (tables self) with
  | None => raise (table_not_found table_name)
  | Some df =>
      match find_target_row (iterrows df) row_name with
      | None => raise (row_not_found row_name table_name)
      | Some target_row =>
          ret (fold_left add_value (py_slice 1 None target_row) float_zero)
      end
  end.

End Processor.

(** ** An instance to run the program on

    Number cells that hold integers, typed int or float
    ([Num := RefPy.number]), boolean raw cells, binary64 floats.
    [float(s)] covers the plain decimal literals
    [[sign] digits [. digits] [(e|E) [sign] digits]] between optional
    whitespace, rounded to the nearest binary64; the other spellings that
    Python accepts (inf, nan, underscores) are outside this instance. *)

Module RefPy.

Local Open Scope Z_scope.

(** Cut [s] at the first character that satisfies [p]. *)
Fixpoint split_on (p : ascii -> bool) (s : string) : string * option string :=
  match s with
  | EmptyString => (EmptyString, None)
  | String a r =>
      if p a then (EmptyString, Some r)
      else let (h, t) := split_on p r in (String a h, t)
  end.

Definition parse_sign (s : string) : bool * string :=
  match s with
  | String "-" r => (true, r)
  | String "+" r => (false, r)
  | _ => (false, s)
  end.

(** A run of decimal digits (the empty run counts 0). *)
Definition digits (s : string) : option Z :=
  option_map Z.of_uint (DecimalString.NilEmpty.uint_of_string s).

(** [(-1)^neg * m * 10^e10] rounded to the nearest binary64, ties to
    even. *)
Definition round_decimal (neg : bool) (m e10 : Z) : float :=
  if m =? 0 then (if neg then PrimFloat.opp PrimFloat.zero else PrimFloat.zero)
  else
    let num := m * 10 ^ Z.max e10 0 in
    let den := 10 ^ Z.max (- e10) 0 in
    let '(mz, ez, lz) := SFdiv_core_binary prec emax num 0 den 0 in
    SF2Prim (binary_round_aux prec emax neg mz ez lz).

Definition parse_exponent (exp : option string) : option Z :=
  match exp with
  | None => Some 0
  | Some e =>
      let (eneg, ed) := parse_sign e in
      if Nat.eqb (String.length ed) 0 then None
      else option_map (fun v => if eneg then - v else v) (digits ed)
  end.

Definition float_of_decimal (s : string) : option float :=
  let s := PyStr.strip s in
  let (neg, body) := parse_sign s in
  let (mant, exp) := split_on (fun c => Ascii.eqb c "e" || Ascii.eqb c "E") body in
  let (ip, fp) := split_on (fun c => Ascii.eqb c ".") mant in
  let fp := match fp with Some f => f | None => EmptyString end in
  if Nat.eqb (String.length ip + String.length fp) 0 then None
  else
    match digits (ip ++ fp)%string, parse_exponent exp with
    | Some m, Some e =>
        Some (round_decimal neg m (e - Z.of_nat (String.length fp)))
    | _, _ => None
    end.

Definition float_of_Z (z : Z) : float :=
  round_decimal (z <? 0) (Z.abs z) 0.

(** A number of a cell: an int, or a float whose value is an integer (below
    10^16 in magnitude, where [str] writes it with [.0]). *)
Inductive number : Type :=
| IntNum (z : Z)
| FloatNum (z : Z).

Definition number_value (x : number) : Z :=
  match x with IntNum z => z | FloatNum z => z end.

Definition number_is_float (x : number) : bool :=
  match x with IntNum _ => false | FloatNum _ => true end.

Definition number_as_float (x : number) : number :=
  FloatNum (number_value x).

Definition float_of_bool (b : bool) : option float :=
  Some (if b then PrimFloat.one else PrimFloat.zero).

Definition str_of_Z (z : Z) : string :=
  DecimalString.NilZero.string_of_int (Z.to_int z).

Definition str_of_bool (b : bool) : string :=
  if b then "True" else "False".

Definition str_of_number (x : number) : string :=
  match x with
  | IntNum z => str_of_Z z
  | FloatNum z => (str_of_Z z ++ ".0")%string
  end.

End RefPy.

Definition RefValues : PyValues :=
  {| Num := RefPy.number;
     Raw := bool;
     pyfloat := float;
     float_zero := PrimFloat.zero;
     float_add := PrimFloat.add;
     float_of_str := RefPy.float_of_decimal;
     float_of_num := fun x => RefPy.float_of_Z (RefPy.number_value x);
     float_of_raw := RefPy.float_of_bool;
     str_of_num := RefPy.str_of_number;
     str_of_raw := RefPy.str_of_bool;
     is_float := RefPy.number_is_float;
     as_float := RefPy.number_as_float |}.

(** ** A small workbook to run the program on *)

Module Demo.

Definition Cells : Type := @Grid RefValues.

Definition num (z : Z) : @Cell RefValues :=
  @CNum RefValues (RefPy.IntNum z).

Definition flt (z : Z) : @Cell RefValues :=
  @CNum RefValues (RefPy.FloatNum z).

(** A sheet with three markers, a numeric label and a blank row. *)
Definition budget : Cells :=
  [ [CText "INPUTS"; CEmpty; CEmpty];
    [num 2024; CText " 1,200.50 "; num 10];
    [CEmpty; CEmpty; CEmpty];
    [CText " Revenue "; CText "100"; CText "200"];
    [CText "Costs"; CText "-50"; CText "-30"] ].

(** A sheet without markers. *)
Definition rates : Cells :=
  [ [num 1; CText "5%"];
    [num 2; CText "n/a"] ].

(** A sheet that repeats a name of [budget], twice. *)
Definition summary : Cells :=
  [ [CText "Costs"; num 7];
    [CText "Costs "; num 9] ].

(** A sheet without cells. *)
Definition blank : Cells := [].

Definition workbook : list (string * Cells) :=
  [ ("Budget", budget); ("Rates", rates); ("Summary", summary) ].

Definition workbook_with_blank : list (string * Cells) :=
  [ ("Budget", budget); ("Blank", blank) ].

Definition processor : @ExcelProcessor RefValues :=
  snd (new_processor workbook).

Definition inputs_table : @DataFrame RefValues :=
  {| index := [0; 1];
     columns := [0; 1; 2];
     data := [ [CText "INPUTS"; CEmpty; CEmpty];
               [num 2024; CText " 1,200.50 "; num 10] ] |}.

(** A raw sub-grid with an empty row and an empty column, as a slice of a
    sheet leaves it. *)
Definition sparse : @DataFrame RefValues :=
  {| index := [3; 4; 5];
     columns := [0; 1; 2];
     data := [ [CText "Totals"; CEmpty; num 1];
               [CEmpty; CEmpty; CEmpty];
               [num 2; CEmpty; CText "x"] ] |}.

(** A sheet of numbers only: an int column and a float column with a
    blank. *)
Definition counts : Cells :=
  [ [num 1; CEmpty];
    [num 2; flt 6] ].

Definition counts_table : @DataFrame RefValues :=
  {| index := [0; 1]; columns := [0; 1]; data := counts |}.

Definition counts_processor : @ExcelProcessor RefValues :=
  snd (new_processor [("Counts", counts)]).

Definition sparse_cleaned : @DataFrame RefValues :=
  {| index := [0; 1];
     columns := [0; 2];
     data := [ [CText "Totals"; num 1];
               [num 2; CText "x"] ] |}.

End Demo.

(** ** The specification's own definitions

    Written from the specification's wording, by position in the grid, to be
    compared with the program's definitions above. *)

Section Specification.

Context {PV : PyValues}.

(** *** Segmenter *)

(** A row is a table-start marker iff its first cell is non-empty, is
    text, and is non-empty after trimming whitespace. *)
Definition spec_is_marker (row : Row) : bool :=
  match row with
  | CText s :: _ => negb (String.eqb (PyStr.strip s) EmptyString)
  | _ => false
  end.

(** The trimmed text of the marker cell. *)
Definition spec_marker_name (row : Row) : string :=
  match row with
  | CText s :: _ => PyStr.strip s
  | _ => EmptyString
  end.

(** The marker rows of a sheet, top to bottom: row number and name. *)
Definition spec_markers (g : Grid) : list (nat * string) :=
  map (fun i => (i, spec_marker_name (nth i g [])))
    (filter (fun i => spec_is_marker (nth i g [])) (seq 0 (length g))).

(** The rows [[j, stop)] of a sheet, as a frame. *)
Definition spec_subgrid (g : Grid) (j stop : nat) : DataFrame :=
  {| index := seq j (stop - j);
     columns := seq 0 (length (hd [] g));
     data := map (fun i => nth i g []) (seq j (stop - j)) |}.

(** The tables the markers delimit: the table of a marker at [j] runs to
    the next marker, the last one to the end of the sheet. *)
Fixpoint spec_segments (g : Grid) (ms : list (nat * string))
  : list (string * DataFrame) :=
  match ms with
  | [] => []
  | (j, name) :: rest =>
      let stop := match rest with
                  | [] => length g
                  | (i, _) :: _ => i
                  end in
      (name, spec_subgrid g j stop) :: spec_segments g rest
  end.

(** The marker rows among the rows [[k, k + len)] of a sheet. *)
Definition markers_from (g : Grid) (k len : nat) : list (nat * string) :=
  map (fun i => (i, spec_marker_name (nth i g [])))
    (filter (fun i => spec_is_marker (nth i g [])) (seq k len)).

(** The table that a scan state holds open, as a marker. *)
Definition pending (st : ScanState) : list (nat * string) :=
  match current_table_name st, current_table_start st with
  | Some name, Some start => [(start, name)]
  | _, _ => []
  end.

(** The states the scan goes through: no table open, or one with a
    non-empty name. *)
Definition coherent (st : ScanState) : Prop :=
  match current_table_name st, current_table_start st with
  | Some name, Some _ => PyStr.truthy name = true
  | None, None => True
  | _, _ => False
  end.

(** The name of the single table of a sheet without markers. *)
Definition spec_fallback_name (sheet_name : string) : string :=
  if String.eqb sheet_name EmptyString then "Default_Table"
  else ("Sheet_" ++ sheet_name)%string.

(** *** Cleaner *)

Definition cell_at (g : Grid) (i j : nat) : Cell :=
  nth j (nth i g []) CEmpty.

Definition is_empty_cell (c : Cell) : bool :=
  match c with CEmpty => true | _ => false end.

(** Rows that are not entirely empty, in increasing order. *)
Definition spec_kept_rows (df : DataFrame) : list nat :=
  filter
    (fun i => negb (forallb (fun j => is_empty_cell (cell_at (data df) i j))
                      (seq 0 (length (columns df)))))
    (seq 0 (length (data df))).

(** Columns that are not entirely empty across the kept rows, in
    increasing order. *)
Definition spec_kept_cols (df : DataFrame) : list nat :=
  filter
    (fun j => negb (forallb (fun i => is_empty_cell (cell_at (data df) i j))
                      (spec_kept_rows df)))
    (seq 0 (length (columns df))).

Definition spec_clean (df : DataFrame) : DataFrame :=
  let rs := spec_kept_rows df in
  let cs := spec_kept_cols df in
  {| index := seq 0 (length rs);
     columns := map (fun j => nth j (columns df) 0) cs;
     data := map (fun i => map (fun j => cell_at (data df) i j) cs) rs |}.

(** *** Tables the store is built from *)

(** A named sub-grid, cleaned. *)
Definition cleaned (t : string * DataFrame) : string * DataFrame :=
  (fst t, clean_table (snd t)).

(** The cleaned tables of one sheet, in the order they are produced. *)
Definition spec_sheet_tables (sheet_name : string) (g : Grid)
  : list (string * DataFrame) :=
  match spec_markers g with
  | [] => [(spec_fallback_name sheet_name, clean_table (read_excel g))]
  | ms => map cleaned (spec_segments g ms)
  end.

(** The sheets as [load_excel_data] stores them. *)
Definition loaded_sheets (workbook : list (string * Grid))
  : list (string * DataFrame) :=
  map (fun it => (fst it, read_excel (snd it))) workbook.

(** The store as [process_tables] builds it from the loaded sheets. *)
Definition built_tables (sheets : list (string * DataFrame))
  : PyDict.dict DataFrame :=
  fold_left
    (fun T it => PyDict.update T (identify_tables_in_sheet (snd it) (fst it)))
    sheets PyDict.empty.

(** The cleaned tables of a workbook, sheet after sheet. *)
Definition spec_workbook_tables (workbook : list (string * Grid))
  : list (string * DataFrame) :=
  flat_map (fun it => spec_sheet_tables (fst it) (snd it)) workbook.

(** The store a sequence of writes leaves. *)
Definition dict_of_writes (ws : list (string * DataFrame))
  : PyDict.dict DataFrame :=
  fold_left (fun d w => PyDict.set (fst w) (snd w) d) ws PyDict.empty.

(** Some cell of the sheet is not empty. *)
Definition has_value (g : Grid) : bool :=
  existsb (existsb notna) g.

(** Every table of the store has at least one row. *)
Definition store_tables_have_rows (self : ExcelProcessor) : Prop :=
  forall name df,
    PyDict.get name (tables self) = Some df -> 1 <= length (data df).

(** *** Queries *)

(** The label of a row: the text of its first cell, when that is not
    empty. *)
Definition spec_label (row : Row) : option string :=
  match row with
  | [] => None
  | c :: _ => if is_empty_cell c then None else Some (str c)
  end.

Definition spec_symbol (c : ascii) : bool :=
  Ascii.eqb c "%" || Ascii.eqb c "$" || Ascii.eqb c ",".

Fixpoint spec_drop_symbols (s : string) : string :=
  match s with
  | EmptyString => EmptyString
  | String a r =>
      if spec_symbol a then spec_drop_symbols r
      else String a (spec_drop_symbols r)
  end.

(** What a cell adds to the sum; [None] when it adds nothing. *)
Definition spec_contribution (c : Cell) : option pyfloat :=
  match c with
  | CEmpty => None
  | CNum x => Some (float_of_num x)
  | CText s =>
      let t := PyStr.strip (spec_drop_symbols s) in
      if String.eqb t EmptyString then None else float_of_str t
  | CRaw v => float_of_raw v
  end.

Definition spec_sum (cells : list Cell) : pyfloat :=
  fold_left
    (fun acc c =>
       match spec_contribution c with
       | Some x => float_add acc x
       | None => acc
       end)
    cells float_zero.

(** [sum_row] on a table that is present, over its rows as they are read
    ([df_values]): [None] stands for NotFound(row). *)
Definition spec_sum_row (df : DataFrame) (row_name : string)
  : option pyfloat :=
  match
    find (fun row =>
            match spec_label row with
            | Some l => String.eqb l row_name
            | None => false
            end) (df_values df)
  with
  | None => None
  | Some row => Some (spec_sum (tl row))
  end.

(** [list_row_labels] on a table that is present, over its rows as they
    are read ([df_values]). *)
Definition spec_row_labels (df : DataFrame) : list string :=
  flat_map (fun row => match spec_label row with
                       | Some l => [l]
                       | None => []
                       end) (df_values df).

(** [s'] is [s] with symbols ['%'], ['$'], [','] added anywhere and
    whitespace added around it. *)
Inductive Decorated (s : string) : string -> Prop :=
| Decorated_refl : Decorated s s
| Decorated_symbol a c b :
    Decorated s (a ++ b)%string -> spec_symbol c = true ->
    Decorated s (a ++ String c b)%string
| Decorated_space_left c s' :
    Decorated s s' -> PyStr.is_space c = true ->
    Decorated s (String c s')
| Decorated_space_right c s' :
    Decorated s s' -> PyStr.is_space c = true ->
    Decorated s (s' ++ String c EmptyString)%string.

End Specification.

(** ** The application: start-up and endpoints *)

Section Application.

Context {PV : PyValues}.

(** [str(e)] on an [HTTPException]: the status code, a colon, the
    detail. *)
Definition str_exc (e : PyExc) : string :=
  match e with
  | HTTPException status_code detail =>
      (NilZero.string_of_uint (Nat.to_uint status_code) ++ ": " ++ detail)%string
  end.

(** What the file system and the workbook reader give for the configured
    path: no file, a file that [pd.ExcelFile]/[pd.read_excel] refuse with an
    exception whose text is [message], or the sheets of a workbook. *)
Inductive Resource : Type :=
| NoFile
| Unreadable (message : string)
| Sheets (workbook : list (string * Grid)).

(** [ExcelProcessor(file_path)]: [__init__] and [load_excel_data] with its
    [try]/[except], which turns every exception into a 500. *)
Definition ExcelProcessor_new (file_path : string) (resource : Resource)
  : PyExc + ExcelProcessor :=
  let failed (text : string) :=
    inl (HTTPException 500 ("Error loading Excel file: " ++ text)%string) in
  match resource with
  | NoFile => failed ("Excel file not found: " ++ file_path)%string
  | Unreadable message => failed message
  | Sheets workbook =>
      match new_processor workbook with
      | (inr _, self) => inr self
      | (inl e, _) => failed (str_exc e)
      end
  end.

Definition EXCEL_FILE_PATH : string := "/Data/capbudg.xls".

(** The module-level [excel_processor]: [None] until start-up succeeds. *)
Definition App : Type := option ExcelProcessor.

(** [startup_event]: any exception leaves [excel_processor = None]. *)
Definition startup_event (resource : Resource) : App :=
  match ExcelProcessor_new EXCEL_FILE_PATH resource with
  | inr processor => Some processor
  | inl _ => None
  end.

(** The JSON bodies the endpoints return. *)
Inductive Response : Type :=
| RootResponse (message version : string) (endpoints : list string)
| TablesResponse (tables : list string)
| TableDetailsResponse (table_name : string) (row_names : list string)
| RowSumResponse (table_name row_name : string) (sum : pyfloat)
| HealthResponse (status : string) (excel_processor_initialized : bool).

(** An endpoint returns or raises, and hands the application state on. *)
Definition Endpoint : Type := App -> (PyExc + Response) * App.

Definition not_initialized : PyExc :=
  HTTPException 500 "Excel processor not initialized".

(** [GET /] *)
Definition root : Endpoint :=
  fun app =>
    (inr (RootResponse "Excel Data Processing API" "1.0.0"
            ["/list_tables"; "/get_table_details"; "/row_sum"]), app).

(** [GET /list_tables]: its handler wraps every exception. *)
Definition list_tables : Endpoint :=
  fun app =>
    match app with
    | None => (inl not_initialized, app)
    | Some processor =>
        match get_table_names processor with
        | (inr tables, processor') =>
            (inr (TablesResponse tables), Some processor')
        | (inl e, processor') =>
            (inl (HTTPException 500
                    ("Error listing tables: " ++ str_exc e)%string),
             Some processor')
        end
    end.

(** [GET /get_table_details]: an [HTTPException] is raised again. *)
Definition get_table_details (table_name : string) : Endpoint :=
  fun app =>
    match app with
    | None => (inl not_initialized, app)
    | Some processor =>
        match get_table_row_names table_name processor with
        | (inr row_names, processor') =>
            (inr (TableDetailsResponse table_name row_names), Some processor')
        | (inl (HTTPException status_code detail), processor') =>
            (inl (HTTPException status_code detail), Some processor')
        end
    end.

(** [GET /row_sum]: an [HTTPException] is raised again. *)
Definition row_sum (table_name row_name : string) : Endpoint :=
  fun app =>
    match app with
    | None => (inl not_initialized, app)
    | Some processor =>
        match calculate_row_sum table_name row_name processor with
        | (inr total_sum, processor') =>
            (inr (RowSumResponse table_name row_name total_sum),
             Some processor')
        | (inl (HTTPException status_code detail), processor') =>
            (inl (HTTPException status_code detail), Some processor')
        end
    end.

(** [GET /health] *)
Definition health_check : Endpoint :=
  fun app =>
    (inr (HealthResponse "healthy"
            (match app with Some _ => true | None => false end)), app).

(** The status code of what an endpoint raised. *)
Definition status_of (e : PyExc) : nat :=
  match e with HTTPException status_code _ => status_code end.

End Application.

(** ** Markers of a sheet with rows put above it *)

(** A marker, [k] rows further down. *)
Definition shift_marker (k : nat) (p : nat * string) : nat * string :=
  (k + fst p, snd p).

(** ** Key order of a dictionary *)

(** The keys after the assignments [d[k] = ...] for [k] in [ks], on a
    dictionary whose keys are [seen]: a new key goes last, a known one stays
    where it is. *)
Fixpoint add_new (seen ks : list string) : list string :=
  match ks with
  | [] => seen
  | k :: ks' =>
      add_new (if existsb (String.eqb k) seen then seen else seen ++ [k]) ks'
  end.

(** The distinct names of [ks], each at its first appearance. *)
Definition first_appearances (ks : list string) : list string :=
  add_new [] ks.

(** * Properties *)

(** ** Strings *)

Module PyStrFacts.
Import PyStr.

Lemma append_nil_r (s : string) : (s ++ EmptyString)%string = s.
Proof. induction s as [|a s IH]; simpl; [reflexivity | now rewrite IH]. Qed.

Lemma append_assoc (a b c : string) :
  ((a ++ b) ++ c)%string = (a ++ (b ++ c))%string.
Proof. induction a as [|x a IH]; simpl; [reflexivity | now rewrite IH]. Qed.

Lemma truthy_eqb (s : string) : truthy s = negb (String.eqb s EmptyString).
Proof. destruct s; reflexivity. Qed.

Lemma all_space_app (a b : string) :
  all_space (a ++ b)%string = all_space a && all_space b.
Proof.
  induction a as [|x a IH]; simpl; [reflexivity|].
  now rewrite IH, andb_assoc.
Qed.

Lemma lstrip_all_space (w : string) :
  all_space w = true -> lstrip w = EmptyString.
Proof.
  induction w as [|a w IH]; simpl; [reflexivity|].
  intros H. apply andb_true_iff in H as [Ha Hw]. now rewrite Ha, IH.
Qed.

Lemma rstrip_all_space (w : string) :
  all_space w = true -> rstrip w = EmptyString.
Proof.
  induction w as [|a w IH]; simpl; [reflexivity|].
  intros H. apply andb_true_iff in H as [Ha Hw]. now rewrite IH, Ha.
Qed.

Lemma lstrip_space_app (w x : string) :
  all_space w = true -> lstrip (w ++ x)%string = lstrip x.
Proof.
  induction w as [|a w IH]; simpl; [reflexivity|].
  intros H. apply andb_true_iff in H as [Ha Hw]. now rewrite Ha, IH.
Qed.

Lemma rstrip_app_space (x w : string) :
  all_space w = true -> rstrip (x ++ w)%string = rstrip x.
Proof.
  intros Hw. induction x as [|a x IH]; simpl.
  - now apply rstrip_all_space.
  - now rewrite IH.
Qed.

Lemma strip_app_space (x w : string) :
  all_space w = true -> strip (x ++ w)%string = strip x.
Proof.
  intros Hw. unfold strip. induction x as [|a x IH]; simpl.
  - now rewrite (lstrip_all_space _ Hw).
  - destruct (is_space a); [exact IH|].
    now apply (rstrip_app_space (String a x)).
Qed.

(** Whitespace around a string does not change what [strip] returns. *)
Lemma strip_surrounded (w1 x w2 : string) :
  all_space w1 = true -> all_space w2 = true ->
  strip (w1 ++ (x ++ w2))%string = strip x.
Proof.
  intros H1 H2. unfold strip. rewrite (lstrip_space_app w1 _ H1).
  now apply strip_app_space.
Qed.

End PyStrFacts.

(** ** Dictionaries *)

Module PyDictFacts.
Import PyDict.

Section WithValues.
Variable V : Type.
Implicit Types (d other : dict V) (k : string) (v : V).
Implicit Types (ws : list (string * V)).

Lemma get_set_same d k v : get k (set k v d) = Some v.
Proof.
  induction d as [|[k' v'] d IH]; simpl.
  - now rewrite String.eqb_refl.
  - destruct (String.eqb k' k) eqn:E; simpl; rewrite E; [reflexivity | exact IH].
Qed.

Lemma get_set_other d k k' v : k' <> k -> get k' (set k v d) = get k' d.
Proof.
  intros Hne. induction d as [|[k0 v0] d IH]; simpl.
  - apply String.eqb_neq in Hne. rewrite String.eqb_sym in Hne.
    now rewrite Hne.
  - destruct (String.eqb k0 k) eqn:E; simpl.
    + apply String.eqb_eq in E. subst k0.
      apply String.eqb_neq in Hne. rewrite String.eqb_sym in Hne.
      now rewrite Hne.
    + destruct (String.eqb k0 k'); [reflexivity | exact IH].
Qed.

Lemma get_set d k k' v :
  get k' (set k v d) = if String.eqb k k' then Some v else get k' d.
Proof.
  destruct (String.eqb k k') eqn:E.
  - apply String.eqb_eq in E. subst. apply get_set_same.
  - apply String.eqb_neq in E. apply get_set_other. congruence.
Qed.

Lemma set_not_empty d k v : truthy (set k v d) = true.
Proof.
  destruct d as [|[k' v'] d]; simpl; [reflexivity|].
  now destruct (String.eqb k' k).
Qed.

Lemma get_write_all ws : forall d k,
  get k (write_all ws d)
  = match last_write k ws with Some v => Some v | None => get k d end.
Proof.
  induction ws as [|[k' v] ws IH]; intros d k; simpl; [reflexivity|].
  unfold write_all in *. simpl. rewrite IH.
  destruct (last_write k ws); [reflexivity|].
  rewrite get_set. now destruct (String.eqb k' k).
Qed.

Lemma last_write_app k ws1 ws2 :
  last_write k (ws1 ++ ws2)
  = match last_write k ws2 with
    | Some v => Some v
    | None => last_write k ws1
    end.
Proof.
  induction ws1 as [|[k' v] ws1 IH]; simpl.
  - now destruct (last_write k ws2).
  - rewrite IH. now destruct (last_write k ws2).
Qed.

Lemma last_write_absent k ws :
  ~ In k (map fst ws) -> last_write k ws = None.
Proof.
  induction ws as [|[k' v] ws IH]; simpl; [reflexivity|].
  intros Hn. rewrite IH by tauto.
  destruct (String.eqb k' k) eqn:E; [|reflexivity].
  apply String.eqb_eq in E. tauto.
Qed.

Lemma keys_set d k v :
  keys (set k v d) = if mem k d then keys d else keys d ++ [k].
Proof.
  unfold mem. induction d as [|[k' v'] d IH]; simpl; [reflexivity|].
  destruct (String.eqb k' k) eqn:E; simpl; [reflexivity|].
  rewrite IH. now destruct (get k d).
Qed.

Lemma get_none_not_in d k : get k d = None -> ~ In k (keys d).
Proof.
  induction d as [|[k' v'] d IH]; simpl; [tauto|].
  destruct (String.eqb k' k) eqn:E; [discriminate|].
  apply String.eqb_neq in E. intros H [H1|H1]; [congruence | now apply IH].
Qed.

Lemma NoDup_keys_set d k v : NoDup (keys d) -> NoDup (keys (set k v d)).
Proof.
  intros Hd. rewrite keys_set. unfold mem.
  destruct (get k d) eqn:E; [exact Hd|].
  apply NoDup_app; [exact Hd | repeat constructor; simpl; tauto |].
  intros x Hx [<-|[]]. revert Hx. now apply get_none_not_in.
Qed.

Lemma NoDup_keys_write_all ws : forall d,
  NoDup (keys d) -> NoDup (keys (write_all ws d)).
Proof.
  induction ws as [|[k v] ws IH]; intros d Hd; simpl; [exact Hd|].
  apply IH. now apply NoDup_keys_set.
Qed.

(** On a dictionary, whose keys are distinct, the last write of a key
    is its value. *)
Lemma last_write_items d k :
  NoDup (keys d) -> last_write k (items d) = get k d.
Proof.
  unfold items. induction d as [|[k' v'] d IH]; simpl; [reflexivity|].
  intros Hd. inversion Hd as [|? ? Hn Hd']; subst.
  rewrite IH by exact Hd'.
  destruct (String.eqb k' k) eqn:E; [|now destruct (get k d)].
  apply String.eqb_eq in E. subst k'.
  destruct (get k d) eqn:G; [|reflexivity].
  exfalso. apply Hn. clear -G.
  induction d as [|[k0 v0] d IH]; simpl in *; [discriminate|].
  destruct (String.eqb k0 k) eqn:E.
  - apply String.eqb_eq in E. now left.
  - right. now apply IH.
Qed.

Lemma get_update d other k :
  NoDup (keys other) ->
  get k (update d other)
  = match get k other with Some v => Some v | None => get k d end.
Proof.
  intros Hn. unfold update. rewrite get_write_all.
  now rewrite last_write_items.
Qed.

End WithValues.

End PyDictFacts.

(** ** The row queries *)

Section QueryFacts.

Context {PV : PyValues}.
Import PyStr PyStrFacts.

Lemma symbol_not_space (c : ascii) :
  spec_symbol c = true -> is_space c = false.
Proof.
  unfold spec_symbol. intros H.
  apply orb_true_iff in H as [H|H]; [apply orb_true_iff in H as [H|H]|];
    apply Ascii.eqb_eq in H; subst c; reflexivity.
Qed.

Lemma space_not_symbol (c : ascii) :
  is_space c = true -> spec_symbol c = false.
Proof.
  intros H. destruct (spec_symbol c) eqn:E; [|reflexivity].
  apply symbol_not_space in E. congruence.
Qed.

(** The three [replace] calls remove exactly the three symbols. *)
Lemma replace_chain_drops_symbols (s : string) :
  remove_char "," (remove_char "$" (remove_char "%" s))
  = spec_drop_symbols s.
Proof.
  induction s as [|a s IH]; simpl; [reflexivity|].
  unfold spec_symbol.
  destruct (Ascii.eqb a "%") eqn:E1; simpl; [exact IH|].
  destruct (Ascii.eqb a "$") eqn:E2; simpl; [exact IH|].
  destruct (Ascii.eqb a ",") eqn:E3; simpl; [exact IH|].
  now rewrite IH.
Qed.

Lemma clean_value_spec (s : string) :
  clean_value s = strip (spec_drop_symbols s).
Proof. unfold clean_value. now rewrite replace_chain_drops_symbols. Qed.

Lemma drop_symbols_app (a b : string) :
  spec_drop_symbols (a ++ b)%string
  = (spec_drop_symbols a ++ spec_drop_symbols b)%string.
Proof.
  induction a as [|x a IH]; simpl; [reflexivity|].
  destruct (spec_symbol x); simpl; now rewrite IH.
Qed.

(** Decoration leaves the text without its symbols unchanged, up to
    whitespace around it. *)
Lemma Decorated_drop_symbols (s s' : string) :
  Decorated s s' ->
  exists w1 w2,
    all_space w1 = true /\ all_space w2 = true /\
    spec_drop_symbols s' = (w1 ++ (spec_drop_symbols s ++ w2))%string.
Proof.
  induction 1 as [|a c b _ IH Hc|c s' _ IH Hc|c s' _ IH Hc].
  - exists EmptyString, EmptyString. simpl.
    now rewrite append_nil_r.
  - destruct IH as (w1 & w2 & H1 & H2 & E).
    exists w1, w2. repeat split; try assumption.
    rewrite <- E, !drop_symbols_app. simpl. now rewrite Hc.
  - destruct IH as (w1 & w2 & H1 & H2 & E).
    exists (String c w1), w2. simpl. rewrite Hc, H1.
    repeat split; try assumption.
    now rewrite (space_not_symbol _ Hc), E.
  - destruct IH as (w1 & w2 & H1 & H2 & E).
    exists w1, (w2 ++ String c EmptyString)%string.
    rewrite all_space_app. simpl. rewrite H2, Hc.
    repeat split; try assumption.
    rewrite drop_symbols_app, E. simpl.
    rewrite (space_not_symbol _ Hc).
    now rewrite !append_assoc.
Qed.

Lemma clean_value_decorated (s s' : string) :
  Decorated s s' -> clean_value s' = clean_value s.
Proof.
  intros H. rewrite !clean_value_spec.
  destruct (Decorated_drop_symbols s s' H) as (w1 & w2 & H1 & H2 & E).
  rewrite E. now apply strip_surrounded.
Qed.

Lemma try_float_spec (c : Cell) : try_float c = spec_contribution c.
Proof.
  destruct c as [|s|x|v]; simpl; try reflexivity.
  rewrite clean_value_spec, truthy_eqb.
  now destruct (String.eqb (strip (spec_drop_symbols s)) EmptyString).
Qed.

Lemma add_value_spec (acc : pyfloat) (c : Cell) :
  add_value acc c
  = match spec_contribution c with
    | Some x => float_add acc x
    | None => acc
    end.
Proof.
  unfold add_value. rewrite try_float_spec.
  destruct c; reflexivity.
Qed.

Lemma fold_add_value_spec (cells : list Cell) : forall acc,
  fold_left add_value cells acc
  = fold_left
      (fun acc c =>
         match spec_contribution c with
         | Some x => float_add acc x
         | None => acc
         end) cells acc.
Proof.
  induction cells as [|c cells IH]; intros acc; simpl; [reflexivity|].
  now rewrite add_value_spec, IH.
Qed.

Lemma fold_no_contribution (cells : list Cell) : forall acc,
  Forall (fun c => spec_contribution c = None) cells ->
  fold_left
    (fun acc c =>
       match spec_contribution c with
       | Some x => float_add acc x
       | None => acc
       end) cells acc = acc.
Proof.
  induction cells as [|c cells IH]; intros acc H; simpl; [reflexivity|].
  inversion H as [|? ? Hc Hr]; subst. rewrite Hc. now apply IH.
Qed.

Lemma notna_is_empty (c : Cell) : notna c = negb (is_empty_cell c).
Proof. destruct c; reflexivity. Qed.

(** The test of the search loop is the comparison of the row label. *)
Lemma row_test_label (row : Row) (row_name : string) :
  notna (first_cell_of row) && String.eqb (str (first_cell_of row)) row_name
  = match spec_label row with
    | Some l => String.eqb l row_name
    | None => false
    end.
Proof.
  destruct row as [|c row]; simpl; [reflexivity|].
  rewrite notna_is_empty. now destruct (is_empty_cell c).
Qed.

Lemma find_target_row_find (rows : list (nat * Row)) (row_name : string) :
  find_target_row rows row_name
  = find (fun row =>
            match spec_label row with
            | Some l => String.eqb l row_name
            | None => false
            end) (map snd rows).
Proof.
  induction rows as [|[idx row] rows IH]; simpl; [reflexivity|].
  rewrite row_test_label, IH. reflexivity.
Qed.

Lemma map_snd_combine {A B : Type} (l : list A) : forall (l' : list B),
  length l = length l' -> map snd (combine l l') = l'.
Proof.
  induction l as [|a l IH]; intros [|b l'] H; simpl in *;
    try discriminate; [reflexivity|].
  f_equal. apply IH. now injection H.
Qed.

(** [df.values] holds the stored rows, or all of them read as floats. *)
Lemma values_cases (df : DataFrame) :
  df_values df = data df \/ df_values df = map (map astype_float) (data df).
Proof.
  unfold df_values.
  destruct (existsb (existsb is_object_cell) (data df)); [now left|].
  destruct (existsb (existsb is_float_cell) (data df)); [now right | now left].
Qed.

Lemma length_values (df : DataFrame) :
  length (df_values df) = length (data df).
Proof.
  destruct (values_cases df) as [-> | ->]; [reflexivity | apply length_map].
Qed.

Lemma notna_astype_float (c : Cell) : notna (astype_float c) = notna c.
Proof. now destruct c. Qed.

Lemma first_cell_astype_float (row : Row) :
  first_cell_of (map astype_float row) = astype_float (first_cell_of row).
Proof. now destruct row. Qed.

(** Reading a row does not change which of its cells are NA. *)
Lemma values_first_cells_notna (df : DataFrame) :
  map (fun row => notna (first_cell_of row)) (df_values df)
  = map (fun row => notna (first_cell_of row)) (data df).
Proof.
  destruct (values_cases df) as [-> | ->]; [reflexivity|].
  rewrite map_map. apply map_ext. intros row.
  now rewrite first_cell_astype_float, notna_astype_float.
Qed.

Lemma rows_of_iterrows (df : DataFrame) :
  wf_frame df -> map snd (iterrows df) = df_values df.
Proof.
  intros [H _]. apply map_snd_combine. now rewrite length_values.
Qed.

Lemma collect_row_names_spec (rows : list (nat * Row)) : forall acc,
  collect_row_names rows acc
  = acc ++ flat_map (fun row => match spec_label row with
                                | Some l => [l]
                                | None => []
                                end) (map snd rows).
Proof.
  induction rows as [|[idx row] rows IH]; intros acc; simpl.
  - now rewrite app_nil_r.
  - destruct row as [|c row]; simpl; [apply IH|].
    rewrite notna_is_empty. destruct (is_empty_cell c); simpl; [apply IH|].
    rewrite IH, <- app_assoc. reflexivity.
Qed.

Lemma wf_empty_no_rows (df : DataFrame) :
  wf_frame df -> df_empty df = true ->
  Forall (fun row => row = []) (df_values df).
Proof.
  intros [Hi Hr] He. unfold df_empty in He.
  assert (Hd : Forall (fun row => row = []) (data df)).
  { apply orb_true_iff in He as [He|He]; apply Nat.eqb_eq in He.
    - rewrite Hi in He. apply length_zero_iff_nil in He. rewrite He.
      constructor.
    - eapply Forall_impl; [|exact Hr]. simpl. intros r Hl.
      rewrite He in Hl. now apply length_zero_iff_nil. }
  destruct (values_cases df) as [-> | ->]; [exact Hd|].
  apply Forall_map. eapply Forall_impl; [|exact Hd].
  simpl. now intros row ->.
Qed.

Lemma get_table_row_names_spec (self : ExcelProcessor)
      (table_name : string) (df : DataFrame) :
  PyDict.get table_name (tables self) = Some df -> wf_frame df ->
  get_table_row_names table_name self = (inr (spec_row_labels df), self).
Proof.
  intros Hg Hwf. unfold get_table_row_names, bind, get_self, ret.
  rewrite Hg. unfold spec_row_labels.
  destruct (df_empty df) eqn:He.
  - pose proof (wf_empty_no_rows df Hwf He) as Hnil.
    f_equal. f_equal. induction Hnil as [|row rows Hrow _ IH];
      [reflexivity|]. subst row. simpl. exact IH.
  - rewrite collect_row_names_spec, (rows_of_iterrows df Hwf). reflexivity.
Qed.

Lemma calculate_row_sum_eq (self : ExcelProcessor)
      (table_name row_name : string) (df : DataFrame) :
  PyDict.get table_name (tables self) = Some df -> wf_frame df ->
  calculate_row_sum table_name row_name self
  = (match spec_sum_row df row_name with
     | Some x => inr x
     | None => inl (row_not_found row_name table_name)
     end, self).
Proof.
  intros Hg Hwf. unfold calculate_row_sum, bind, get_self, ret, raise.
  rewrite Hg, find_target_row_find, (rows_of_iterrows df Hwf).
  unfold spec_sum_row.
  destruct (find _ (df_values df)) as [row|]; [|reflexivity].
  unfold spec_sum. rewrite fold_add_value_spec.
  destruct row; reflexivity.
Qed.

End QueryFacts.

(** C1. On a table [df] of the store, [calculate_row_sum] returns what the
    specification describes, over the rows as the program reads them
    ([df_values df], the rows [get_table_row_names] takes its names from): the
    rows are searched in order for the first one whose first cell is not
    empty and has the text [row_name]; the result is the float sum over the
    other cells of that row, where a number counts as it is, a text counts
    as the float read from it once ['%'], ['$'], [','] and the whitespace
    around it are removed, and a cell that gives no number adds nothing;
    without such a row the result is the row-not-found error; with such a
    row whose cells give no number it is [0.0]. *)
Theorem calculate_row_sum_correct
    (PV : PyValues) (self : ExcelProcessor)
    (table_name row_name : string) (df : DataFrame) :
  PyDict.get table_name (tables self) = Some df ->
  wf_frame df ->
  calculate_row_sum table_name row_name self
  = (match spec_sum_row df row_name with
     | Some x => inr x
     | None => inl (row_not_found row_name table_name)
     end, self)
  /\ (forall above row below,
        df_values df = above ++ row :: below ->
        Forall (fun r => spec_label r <> Some row_name) above ->
        spec_label row = Some row_name ->
        calculate_row_sum table_name row_name self
        = (inr (spec_sum (tl row)), self)
        /\ (Forall (fun c => spec_contribution c = None) (tl row) ->
            calculate_row_sum table_name row_name self
            = (inr float_zero, self)))
  /\ ((forall row, In row (df_values df) -> spec_label row <> Some row_name) ->
      calculate_row_sum table_name row_name self
      = (inl (row_not_found row_name table_name), self))
  /\ get_table_row_names table_name self = (inr (spec_row_labels df), self).
Proof.
  intros Hg Hwf.
  pose proof (calculate_row_sum_eq self table_name row_name df Hg Hwf) as E.
  split; [exact E|]. split; [|split].
  - intros above row below Hd Ha Hl.
    assert (F : spec_sum_row df row_name = Some (spec_sum (tl row))).
    { unfold spec_sum_row. rewrite Hd. clear Hd.
      induction Ha as [|r above Hr _ IH]; simpl.
      - rewrite Hl, String.eqb_refl. reflexivity.
      - destruct (spec_label r) as [l|] eqn:El; [|exact IH].
        destruct (String.eqb l row_name) eqn:Eq; [|exact IH].
        apply String.eqb_eq in Eq. congruence. }
    rewrite E, F. split; [reflexivity|].
    intros Hn. unfold spec_sum. now rewrite fold_no_contribution.
  - intros Hno. rewrite E. unfold spec_sum_row.
    destruct (find _ (df_values df)) as [row|] eqn:Ef; [|reflexivity].
    apply find_some in Ef as [Hin Hm]. exfalso.
    destruct (spec_label row) as [l|] eqn:El; [|discriminate].
    apply String.eqb_eq in Hm. subst l. exact (Hno row Hin El).
  - now apply get_table_row_names_spec.
Qed.

Lemma calculate_row_sum_correct_witness :
  PyDict.get "INPUTS" (tables Demo.processor) = Some Demo.inputs_table
  /\ wf_frame Demo.inputs_table
  /\ calculate_row_sum "INPUTS" "2024" Demo.processor
     = (inr 1210.5%float, Demo.processor).
Proof.
  assert (Hg : PyDict.get "INPUTS" (tables Demo.processor)
               = Some Demo.inputs_table) by reflexivity.
  assert (Hwf : wf_frame Demo.inputs_table)
    by (split; [reflexivity | repeat constructor]).
  split; [exact Hg|]. split; [exact Hwf|].
  destruct (calculate_row_sum_correct RefValues Demo.processor
              "INPUTS" "2024" Demo.inputs_table Hg Hwf) as [E _].
  rewrite E. reflexivity.
Defined.

(** C6. What a text cell adds to the sum does not change when whitespace is
    added around the text or ['%'], ['$'], [','] are added to it: when the
    text, cleaned, reads as the float [x], the cell with any such additions
    adds exactly [x].  So [" 1,200.50 "], ["1200.50"] and ["1200.50%"] all
    add [float("1200.50")]: the percent sign is removed and does not
    scale. *)
Theorem add_value_decoration_invariant
    (PV : PyValues) (s s' : string) (numerical_sum : pyfloat) :
  Decorated s s' ->
  add_value numerical_sum (CText s') = add_value numerical_sum (CText s)
  /\ (forall x,
        PyStr.truthy (clean_value s) = true ->
        float_of_str (clean_value s) = Some x ->
        add_value numerical_sum (CText s') = float_add numerical_sum x)
  /\ (forall x,
        float_of_str "1200.50" = Some x ->
        add_value numerical_sum (CText " 1,200.50 ")
        = float_add numerical_sum x
        /\ add_value numerical_sum (CText "1200.50")
           = float_add numerical_sum x
        /\ add_value numerical_sum (CText "1200.50%")
           = float_add numerical_sum x).
Proof.
  intros H.
  assert (E : add_value numerical_sum (CText s')
              = add_value numerical_sum (CText s)).
  { unfold add_value, try_float. simpl.
    now rewrite (clean_value_decorated s s' H). }
  split; [exact E|]. split.
  - intros x Ht Hx. rewrite E. unfold add_value, try_float. simpl.
    now rewrite Ht, Hx.
  - intros x Hx. unfold add_value, try_float. simpl.
    change (clean_value " 1,200.50 ") with "1200.50".
    change (clean_value "1200.50") with "1200.50".
    change (clean_value "1200.50%") with "1200.50".
    simpl. rewrite Hx. now repeat split.
Qed.

Lemma add_value_decoration_invariant_witness :
  Decorated "1200.50" " 1,200.50% "
  /\ add_value (PV := RefValues) PrimFloat.zero (CText " 1,200.50% ")
     = 1200.5%float
  /\ add_value (PV := RefValues) PrimFloat.zero (CText " 1,200.50 ")
     = 1200.5%float
  /\ add_value (PV := RefValues) PrimFloat.zero (CText "1200.50")
     = 1200.5%float
  /\ add_value (PV := RefValues) PrimFloat.zero (CText "1200.50%")
     = 1200.5%float.
Proof.
  assert (H : Decorated "1200.50" " 1,200.50% ").
  { change " 1,200.50% "
      with (String " " (("1" ++ String "," ("200.50" ++ String "%" EmptyString))
                        ++ String " " EmptyString))%string.
    apply Decorated_space_left; [|reflexivity].
    apply Decorated_space_right; [|reflexivity].
    apply Decorated_symbol; [|reflexivity].
    change ("1" ++ ("200.50" ++ String "%" EmptyString))%string
      with ("1200.50" ++ String "%" EmptyString)%string.
    apply Decorated_symbol; [|reflexivity].
    apply Decorated_refl. }
  split; [exact H|].
  destruct (add_value_decoration_invariant RefValues "1200.50" " 1,200.50% "
              PrimFloat.zero H) as (_ & Hx & Hs).
  assert (Hf : float_of_str (PyValues := RefValues) "1200.50"
               = Some 1200.5%float) by reflexivity.
  split; [exact (eq_trans (Hx 1200.5%float eq_refl Hf) eq_refl)|].
  destruct (Hs 1200.5%float Hf) as (H1 & H2 & H3).
  split; [exact (eq_trans H1 eq_refl)|].
  split; [exact (eq_trans H2 eq_refl) | exact (eq_trans H3 eq_refl)].
Defined.

(** The three spellings of the specification all add [float("1200.50")],
    whatever [float] is. *)
Example spellings_of_1200_50 (PV : PyValues) :
  try_float (CText " 1,200.50 ") = float_of_str "1200.50"
  /\ try_float (CText "1200.50") = float_of_str "1200.50"
  /\ try_float (CText "1200.50%") = float_of_str "1200.50".
Proof. repeat split. Qed.

(** On binary64 floats that is 1200.5: the percent sign does not scale. *)
Example spellings_add_1200_50 :
  map (add_value (PV := RefValues) PrimFloat.zero)
    [CText " 1,200.50 "; CText "1200.50"; CText "1200.50%"]
  = [1200.5%float; 1200.5%float; 1200.5%float].
Proof. reflexivity. Qed.

(** C7. A table name that is not in the store makes both queries raise the
    table-not-found error, whatever the store holds; a row name that is not
    among the names of a table that is there makes [calculate_row_sum] raise
    the row-not-found error, which is never the table-not-found error;
    [self] comes back unchanged each time. *)
Theorem not_found_errors
    (PV : PyValues) (self : ExcelProcessor) (table_name row_name : string) :
  (PyDict.get table_name (tables self) = None ->
   get_table_row_names table_name self
   = (inl (table_not_found table_name), self)
   /\ calculate_row_sum table_name row_name self
      = (inl (table_not_found table_name), self))
  /\ (forall df row_names,
        PyDict.get table_name (tables self) = Some df ->
        wf_frame df ->
        get_table_row_names table_name self = (inr row_names, self) ->
        ~ In row_name row_names ->
        calculate_row_sum table_name row_name self
        = (inl (row_not_found row_name table_name), self)
        /\ forall other, row_not_found row_name table_name
                         <> table_not_found other).
Proof.
  split.
  - intros Hg. unfold get_table_row_names, calculate_row_sum, bind, get_self.
    rewrite Hg. split; reflexivity.
  - intros df row_names Hg Hwf Hn Hno. split.
    + rewrite (get_table_row_names_spec self table_name df Hg Hwf) in Hn.
      injection Hn as <-.
      rewrite (calculate_row_sum_eq self table_name row_name df Hg Hwf).
      unfold spec_sum_row.
      destruct (find _ (df_values df)) as [row|] eqn:Ef; [|reflexivity].
      apply find_some in Ef as [Hin Hm]. exfalso. apply Hno.
      unfold spec_row_labels. apply in_flat_map. exists row.
      split; [exact Hin|].
      destruct (spec_label row) as [l|]; [|discriminate].
      apply String.eqb_eq in Hm. subst l. now left.
    + intros other. unfold row_not_found, table_not_found. simpl.
      intros H. injection H as H. discriminate H.
Qed.

Lemma not_found_errors_witness :
  PyDict.get "Assets" (tables Demo.processor) = None
  /\ get_table_row_names "Assets" Demo.processor
     = (inl (HTTPException 404 "Table 'Assets' not found"), Demo.processor)
  /\ calculate_row_sum "Assets" "2024" Demo.processor
     = (inl (HTTPException 404 "Table 'Assets' not found"), Demo.processor)
  /\ PyDict.get "INPUTS" (tables Demo.processor) = Some Demo.inputs_table
  /\ get_table_row_names "INPUTS" Demo.processor
     = (inr ["INPUTS"; "2024"], Demo.processor)
  /\ ~ In "2025" ["INPUTS"; "2024"]
  /\ calculate_row_sum "INPUTS" "2025" Demo.processor
     = (inl (HTTPException 404 "Row '2025' not found in table 'INPUTS'"),
        Demo.processor).
Proof.
  assert (Hn : PyDict.get "Assets" (tables Demo.processor) = None)
    by reflexivity.
  assert (Hg : PyDict.get "INPUTS" (tables Demo.processor)
               = Some Demo.inputs_table) by reflexivity.
  assert (Hwf : wf_frame Demo.inputs_table)
    by (split; [reflexivity | repeat constructor]).
  assert (Hl : get_table_row_names "INPUTS" Demo.processor
               = (inr ["INPUTS"; "2024"], Demo.processor)) by reflexivity.
  assert (Hno : ~ In "2025" ["INPUTS"; "2024"])
    by (simpl; intuition discriminate).
  destruct (not_found_errors RefValues Demo.processor "Assets" "2024")
    as [Ht _].
  destruct (not_found_errors RefValues Demo.processor "INPUTS" "2025")
    as [_ Hr].
  destruct (Ht Hn) as [E1 E2].
  destruct (Hr Demo.inputs_table _ Hg Hwf Hl Hno) as [E3 _].
  repeat split; assumption.
Defined.

(** C10. Every name that [get_table_row_names] returns for a table is
    found by [calculate_row_sum] on that table: it returns a sum, and so
    never the row-not-found error. *)
Theorem listed_row_has_sum
    (PV : PyValues) (self : ExcelProcessor)
    (table_name row_name : string) (row_names : list string) :
  fst (get_table_row_names table_name self) = inr row_names ->
  In row_name row_names ->
  exists x, calculate_row_sum table_name row_name self = (inr x, self).
Proof.
  unfold get_table_row_names, calculate_row_sum, bind, get_self, ret, raise.
  destruct (PyDict.get table_name (tables self)) as [df|]; [|discriminate].
  destruct (df_empty df); simpl; intros E Hin; injection E as <-;
    [destruct Hin|].
  rewrite collect_row_names_spec in Hin. simpl in Hin.
  rewrite find_target_row_find.
  apply in_flat_map in Hin as (row & Hrow & Hl).
  destruct (find _ (map snd (iterrows df))) as [r|] eqn:Ef.
  - eexists. reflexivity.
  - exfalso. apply (find_none _ _ Ef) in Hrow.
    destruct (spec_label row) as [l|]; [|destruct Hl].
    destruct Hl as [<-|[]]. now rewrite String.eqb_refl in Hrow.
Qed.

Lemma listed_row_has_sum_witness :
  fst (get_table_row_names "INPUTS" Demo.processor) = inr ["INPUTS"; "2024"]
  /\ In "2024" ["INPUTS"; "2024"]
  /\ exists x, calculate_row_sum "INPUTS" "2024" Demo.processor
               = (inr x, Demo.processor).
Proof.
  assert (H1 : fst (get_table_row_names "INPUTS" Demo.processor)
               = inr ["INPUTS"; "2024"]) by reflexivity.
  assert (H2 : In "2024" ["INPUTS"; "2024"]) by (simpl; tauto).
  split; [exact H1|]. split; [exact H2|].
  exact (listed_row_has_sum RefValues Demo.processor "INPUTS" "2024"
           ["INPUTS"; "2024"] H1 H2).
Defined.

(** ** Lists by position *)

Section PositionFacts.

Context {A : Type}.
Implicit Types (l : list A) (m : list bool) (f : A -> bool).

Lemma select_nil_r m : select m (@nil A) = [].
Proof. now destruct m. Qed.

Lemma select_map {B : Type} (g : A -> B) m : forall l,
  select m (map g l) = map g (select m l).
Proof.
  induction m as [|b m IH]; intros [|x l]; simpl; try reflexivity.
  destruct b; simpl; now rewrite IH.
Qed.

Lemma select_filter f l : select (map f l) l = filter f l.
Proof.
  induction l as [|x l IH]; simpl; [reflexivity|].
  destruct (f x); now rewrite IH.
Qed.

Lemma length_select_mask {B : Type} m : forall l (l' : list B),
  length l = length l' -> length (select m l) = length (select m l').
Proof.
  induction m as [|b m IH]; intros [|x l] [|y l'] H; simpl in *;
    try discriminate; try reflexivity.
  injection H as H. destruct b; simpl; now rewrite (IH l l' H).
Qed.

Lemma select_all m : forall l,
  Forall (fun b => b = true) m -> length l <= length m -> select m l = l.
Proof.
  induction m as [|b m IH]; intros [|x l] Hm Hl; simpl in *;
    try reflexivity; [lia|].
  inversion Hm as [|? ? Hb Hm']; subst. rewrite IH; [reflexivity|assumption|lia].
Qed.

(** [filter] keeps the entries at the positions that pass the test, in
    increasing order. *)
Lemma filter_by_position f (d : A) l :
  filter f l
  = map (fun i => nth i l d)
      (filter (fun i => f (nth i l d)) (seq 0 (length l))).
Proof.
  induction l as [|x l IH] using rev_ind; [reflexivity|].
  rewrite length_app. simpl. rewrite Nat.add_1_r, seq_S. simpl.
  rewrite !filter_app, map_app. f_equal.
  - rewrite IH at 1.
    rewrite (filter_ext_in (fun i => f (nth i (l ++ [x]) d))
               (fun i => f (nth i l d))).
    + apply map_ext_in. intros i Hi. apply filter_In in Hi as [Hi _].
      apply in_seq in Hi. now rewrite app_nth1 by lia.
    + intros i Hi. apply in_seq in Hi. now rewrite app_nth1 by lia.
  - assert (N : nth (length l) (l ++ [x]) d = x)
      by (rewrite app_nth2, Nat.sub_diag by lia; reflexivity).
    simpl. rewrite N. destruct (f x); simpl; [now rewrite N | reflexivity].
Qed.

Lemma select_by_position_from (d : A) m : forall l k,
  length l = length m ->
  select m l
  = map (fun j => nth (j - k) l d)
      (filter (fun j => nth (j - k) m false) (seq k (length m))).
Proof.
  induction m as [|b m IH]; intros [|x l] k H;
    try discriminate; try reflexivity.
  injection H as H.
  assert (T : map (fun j => nth (j - k) (x :: l) d)
                (filter (fun j => nth (j - k) (b :: m) false)
                   (seq (S k) (length m)))
              = select m l).
  { rewrite (IH l (S k) H).
    rewrite (filter_ext_in (fun j => nth (j - k) (b :: m) false)
               (fun j => nth (j - S k) m false)).
    - apply map_ext_in. intros j Hj. apply filter_In in Hj as [Hj _].
      apply in_seq in Hj. replace (j - k) with (S (j - S k)) by lia.
      reflexivity.
    - intros j Hj. apply in_seq in Hj.
      replace (j - k) with (S (j - S k)) by lia. reflexivity. }
  cbn [select length seq filter]. rewrite Nat.sub_diag.
  change (nth 0 (b :: m) false) with b.
  destruct b; cbn [map]; rewrite T; [|reflexivity].
  now rewrite Nat.sub_diag.
Qed.

(** [select] keeps the entries at the marked positions, in increasing
    order. *)
Lemma select_by_position (d : A) m l :
  length l = length m ->
  select m l
  = map (fun j => nth j l d)
      (filter (fun j => nth j m false) (seq 0 (length m))).
Proof.
  intros H. rewrite (select_by_position_from d m l 0 H).
  rewrite (filter_ext (fun j => nth (j - 0) m false)
             (fun j => nth j m false))
    by (intros j; now rewrite Nat.sub_0_r).
  apply map_ext. intros j. now rewrite Nat.sub_0_r.
Qed.

End PositionFacts.

Lemma filter_seq_sorted (p : nat -> bool) (len start : nat) :
  StronglySorted lt (filter p (seq start len)).
Proof.
  revert start. induction len as [|len IH]; intros start; simpl.
  - constructor.
  - destruct (p start); [|apply IH].
    constructor; [apply IH|].
    apply Forall_forall. intros i Hi. apply filter_In in Hi as [Hi _].
    apply in_seq in Hi. lia.
Qed.

(** ** Masks *)

Section MaskFacts.

Implicit Types (a b m : list bool).

Lemma length_list_or a b : length (list_or a b) = Nat.min (length a) (length b).
Proof. unfold list_or. now rewrite length_map, length_combine. Qed.

Lemma list_or_nil_r a : list_or a [] = [].
Proof. unfold list_or. now destruct a. Qed.

Lemma select_list_or m : forall a b,
  select m (list_or a b) = list_or (select m a) (select m b).
Proof.
  induction m as [|x m IH]; intros a b; [reflexivity|].
  destruct a as [|y a]; [now destruct x|].
  destruct b as [|z b].
  - rewrite select_nil_r, !list_or_nil_r. apply select_nil_r.
  - change (list_or (y :: a) (z :: b)) with ((y || z) :: list_or a b).
    simpl. destruct x; rewrite IH; reflexivity.
Qed.

Lemma select_repeat_false {B : Type} m : forall (cols : list B),
  length cols = length m ->
  select m (repeat false (length m)) = repeat false (length (select m cols)).
Proof.
  induction m as [|x m IH]; intros [|c cols] H; simpl in *;
    try discriminate; try reflexivity.
  injection H as H. destruct x; simpl; now rewrite (IH cols H).
Qed.

Lemma select_self m : Forall (fun v => v = true) (select m m).
Proof.
  induction m as [|x m IH]; simpl; [constructor|].
  destruct x; [constructor|]; auto.
Qed.

Lemma nth_list_or a b (j : nat) :
  length a = length b ->
  nth j (list_or a b) false = nth j a false || nth j b false.
Proof.
  revert b j. induction a as [|x a IH]; intros [|y b] j H; simpl in *;
    try discriminate.
  - now destruct j.
  - injection H as H. destruct j; [reflexivity|]. now apply IH.
Qed.

Lemma nth_repeat_false (n j : nat) : nth j (repeat false n) false = false.
Proof.
  revert j. induction n as [|n IH]; intros [|j]; simpl; auto.
Qed.

End MaskFacts.

(** ** [clean_table] *)

Section CleanFacts.

Context {PV : PyValues}.
Implicit Types (g : Grid) (r : Row) (df : DataFrame).

Lemma filter_true {A : Type} (l : list A) : filter (fun _ => true) l = l.
Proof. induction l as [|x l IH]; simpl; [reflexivity | now rewrite IH]. Qed.

Lemma map_nth_seq {A : Type} (d : A) (l : list A) :
  map (fun i => nth i l d) (seq 0 (length l)) = l.
Proof.
  transitivity (filter (fun _ => true) l); [|apply filter_true].
  rewrite (filter_by_position (fun _ => true) d l).
  now rewrite filter_true.
Qed.

Lemma existsb_map_comp {A B : Type} (f : B -> bool) (h : A -> B) (l : list A) :
  existsb f (map h l) = existsb (fun x => f (h x)) l.
Proof. induction l as [|x l IH]; simpl; [reflexivity | now rewrite IH]. Qed.

Lemma existsb_negb_forallb {A : Type} (f : A -> bool) (l : list A) :
  existsb f l = negb (forallb (fun x => negb (f x)) l).
Proof.
  induction l as [|x l IH]; simpl; [reflexivity|].
  rewrite IH. now destruct (f x).
Qed.

Lemma forallb_pointwise {A : Type} (f h : A -> bool) (l : list A) :
  (forall x, In x l -> f x = h x) -> forallb f l = forallb h l.
Proof.
  induction l as [|x l IH]; simpl; intros H; [reflexivity|].
  rewrite (H x) by now left. rewrite IH; [reflexivity|].
  intros y Hy. apply H. now right.
Qed.

Lemma is_empty_notna (c : Cell) : is_empty_cell c = negb (notna c).
Proof. destruct c; reflexivity. Qed.

(** A row has a value iff not all its cells, by position, are empty. *)
Lemma row_has_value_by_position r :
  existsb notna r
  = negb (forallb (fun j => is_empty_cell (nth j r CEmpty))
            (seq 0 (length r))).
Proof.
  transitivity (existsb notna (map (fun j => nth j r CEmpty)
                                 (seq 0 (length r))));
    [now rewrite map_nth_seq|].
  rewrite existsb_map_comp, existsb_negb_forallb. f_equal.
  apply forallb_pointwise. intros j _. now rewrite is_empty_notna.
Qed.

Lemma length_notna_any_cols (n : nat) g :
  Forall (fun r => length r = n) g -> length (notna_any_cols n g) = n.
Proof.
  induction 1 as [|r g Hr _ IH]; simpl; [apply repeat_length|].
  rewrite length_list_or, length_map, IH, Hr. apply Nat.min_id.
Qed.

(** A column is kept iff some row has a value there. *)
Lemma nth_notna_any_cols (n : nat) g (j : nat) :
  Forall (fun r => length r = n) g ->
  nth j (notna_any_cols n g) false
  = existsb (fun r => notna (nth j r CEmpty)) g.
Proof.
  induction 1 as [|r g Hr Hg IH]; simpl; [apply nth_repeat_false|].
  rewrite nth_list_or
    by (rewrite length_map, (length_notna_any_cols n g Hg); exact Hr).
  rewrite IH. f_equal.
  change false with (notna CEmpty). apply map_nth.
Qed.

(** The mask of the selected columns is the selection of the mask. *)
Lemma notna_any_cols_select (m : list bool) (cols : list nat) g :
  length cols = length m ->
  notna_any_cols (length (select m cols)) (map (select m) g)
  = select m (notna_any_cols (length m) g).
Proof.
  intros Hc. induction g as [|r g IH]; simpl.
  - symmetry. now apply select_repeat_false.
  - now rewrite IH, select_list_or, select_map.
Qed.

Lemma Forall_filter {A : Type} (P : A -> Prop) (f : A -> bool) (l : list A) :
  Forall P l -> Forall P (filter f l).
Proof.
  intros H. apply Forall_forall. intros x Hx.
  apply filter_In in Hx as [Hx _]. revert x Hx. now apply Forall_forall.
Qed.

(** A row with a value keeps one when the empty columns go. *)
Lemma row_keeps_value (n : nat) g r :
  Forall (fun r => length r = n) g -> In r g ->
  existsb notna r = true ->
  existsb notna (select (notna_any_cols n g) r) = true.
Proof.
  intros Hg Hin He.
  assert (Hr : length r = n)
    by (exact (proj1 (Forall_forall _ g) Hg r Hin)).
  apply existsb_exists in He as (c & Hc & Hv).
  destruct (In_nth r c CEmpty Hc) as (j & Hj & Ej).
  rewrite (select_by_position CEmpty (notna_any_cols n g) r)
    by (now rewrite length_notna_any_cols).
  rewrite existsb_map_comp. apply existsb_exists.
  exists j. split; [|now rewrite Ej].
  apply filter_In. split.
  - apply in_seq. rewrite length_notna_any_cols by assumption. lia.
  - rewrite nth_notna_any_cols by assumption.
    apply existsb_exists. exists r. split; [assumption | now rewrite Ej].
Qed.

Lemma data_dropna_rows df :
  data (dropna_rows df) = filter (existsb notna) (data df).
Proof. apply select_filter. Qed.

Lemma length_index_dropna_rows df :
  length (index df) = length (data df) ->
  length (index (dropna_rows df)) = length (data (dropna_rows df)).
Proof. intros H. simpl. now apply length_select_mask. Qed.

Lemma wf_dropna_rows df : wf_frame df -> wf_frame (dropna_rows df).
Proof.
  intros [Hi Hr]. split; [now apply length_index_dropna_rows|].
  rewrite data_dropna_rows. now apply Forall_filter.
Qed.

Lemma wf_dropna_cols df : wf_frame df -> wf_frame (dropna_cols df).
Proof.
  intros [Hi Hr]. split; [simpl; now rewrite length_map|]. simpl.
  apply Forall_forall. intros r' Hr'.
  apply in_map_iff in Hr' as (r & <- & Hin).
  apply length_select_mask.
  exact (proj1 (Forall_forall _ _) Hr r Hin).
Qed.

Lemma wf_reset_index df : wf_frame df -> wf_frame (reset_index df).
Proof. intros [Hi Hr]. split; [simpl; now rewrite length_seq | exact Hr]. Qed.

Lemma wf_clean_table df : wf_frame df -> wf_frame (clean_table df).
Proof.
  intros H. unfold clean_table.
  now apply wf_reset_index, wf_dropna_cols, wf_dropna_rows.
Qed.

(** Dropping empty rows from a frame whose rows all hold a value, and empty
    columns from one whose columns all hold a value, changes nothing. *)
Lemma dropna_rows_id df :
  length (index df) = length (data df) ->
  Forall (fun r => existsb notna r = true) (data df) ->
  dropna_rows df = df.
Proof.
  intros Hi Hv. destruct df as [idx cols g]. unfold dropna_rows. simpl in *.
  assert (Hk : Forall (fun b => b = true) (notna_any_rows g))
    by (unfold notna_any_rows; now apply Forall_map).
  assert (Hl : length (notna_any_rows g) = length g)
    by (unfold notna_any_rows; apply length_map).
  rewrite (select_all _ idx Hk) by lia.
  rewrite (select_all _ g Hk) by lia.
  reflexivity.
Qed.

Lemma dropna_cols_id df :
  wf_frame df ->
  Forall (fun b => b = true) (notna_any_cols (length (columns df)) (data df)) ->
  dropna_cols df = df.
Proof.
  intros [Hi Hr] Hk. destruct df as [idx cols g]. unfold dropna_cols.
  simpl in *.
  pose proof (length_notna_any_cols (length cols) g Hr) as Hl.
  rewrite select_all by (assumption || lia). f_equal.
  transitivity (map (fun r : Row => r) g); [|apply map_id].
  apply map_ext_in. intros r Hin.
  apply select_all; [assumption|].
  rewrite Hl. apply Nat.eq_le_incl.
  exact (proj1 (Forall_forall _ _) Hr r Hin).
Qed.

Lemma reset_index_twice df : reset_index (reset_index df) = reset_index df.
Proof. unfold reset_index. simpl. now rewrite length_seq. Qed.

(** After [clean_table] every row and every column holds a value. *)
Lemma clean_rows_have_values df :
  wf_frame df ->
  Forall (fun r => existsb notna r = true)
    (data (dropna_cols (dropna_rows df))).
Proof.
  intros Hwf. pose proof (wf_dropna_rows df Hwf) as [_ Hr].
  simpl. apply Forall_forall. intros r' Hr'.
  apply in_map_iff in Hr' as (r & <- & Hin).
  apply row_keeps_value; try assumption.
  change (select (notna_any_rows (data df)) (data df))
    with (data (dropna_rows df)) in Hin.
  rewrite data_dropna_rows in Hin. now apply filter_In in Hin.
Qed.

Lemma clean_cols_have_values df :
  wf_frame df ->
  let df' := dropna_cols (dropna_rows df) in
  Forall (fun b => b = true)
    (notna_any_cols (length (columns df')) (data df')).
Proof.
  intros Hwf. pose proof (wf_dropna_rows df Hwf) as [_ Hr].
  simpl. set (g := select (notna_any_rows (data df)) (data df)) in *.
  set (m := notna_any_cols (length (columns df)) g).
  assert (Hm : length m = length (columns df))
    by (now apply length_notna_any_cols).
  rewrite notna_any_cols_select by (now rewrite Hm).
  rewrite Hm. fold m. apply select_self.
Qed.

End CleanFacts.

(** C4. Cleaning a cleaned frame gives the same frame: row labels, column
    labels and cells. *)
Theorem clean_table_idempotent (PV : PyValues) (df : DataFrame) :
  wf_frame df -> clean_table (clean_table df) = clean_table df.
Proof.
  intros Hwf. unfold clean_table.
  pose proof (clean_rows_have_values df Hwf) as Hrows.
  pose proof (clean_cols_have_values df Hwf) as Hcols.
  pose proof (wf_dropna_cols _ (wf_dropna_rows df Hwf)) as Hwf1.
  set (df1 := dropna_cols (dropna_rows df)) in *.
  rewrite (dropna_rows_id (reset_index df1)).
  - rewrite (dropna_cols_id (reset_index df1)).
    + apply reset_index_twice.
    + now apply wf_reset_index.
    + exact Hcols.
  - simpl. rewrite length_seq. exact (proj1 Hwf1).
  - exact Hrows.
Qed.

Lemma clean_table_idempotent_witness :
  wf_frame Demo.sparse
  /\ clean_table Demo.sparse = Demo.sparse_cleaned
  /\ clean_table (clean_table Demo.sparse) = clean_table Demo.sparse.
Proof.
  assert (Hwf : wf_frame Demo.sparse)
    by (split; [reflexivity | repeat constructor]).
  split; [exact Hwf|]. split; [reflexivity|].
  exact (clean_table_idempotent RefValues Demo.sparse Hwf).
Defined.

Section CleanSpec.

Context {PV : PyValues}.
Implicit Types (df : DataFrame).

Lemma wf_row_length df (i : nat) :
  wf_frame df -> i < length (data df) ->
  length (nth i (data df) []) = length (columns df).
Proof.
  intros [_ Hr] Hi.
  exact (proj1 (Forall_forall _ _) Hr _ (nth_In _ _ Hi)).
Qed.

Lemma kept_rows_have_values df :
  wf_frame df ->
  spec_kept_rows df
  = filter (fun i => existsb notna (nth i (data df) []))
      (seq 0 (length (data df))).
Proof.
  intros Hwf. unfold spec_kept_rows. apply filter_ext_in.
  intros i Hi. apply in_seq in Hi.
  rewrite row_has_value_by_position, (wf_row_length df i Hwf) by lia.
  reflexivity.
Qed.

Lemma kept_rows_in_range df (i : nat) :
  In i (spec_kept_rows df) -> i < length (data df).
Proof.
  unfold spec_kept_rows. intros H. apply filter_In in H as [H _].
  apply in_seq in H. lia.
Qed.

Lemma data_dropna_rows_by_position df :
  wf_frame df ->
  data (dropna_rows df)
  = map (fun i => nth i (data df) []) (spec_kept_rows df).
Proof.
  intros Hwf. rewrite data_dropna_rows, (kept_rows_have_values df Hwf).
  apply filter_by_position.
Qed.

Lemma kept_cols_are_mask df :
  wf_frame df ->
  let m := notna_any_cols (length (columns df)) (data (dropna_rows df)) in
  filter (fun j => nth j m false) (seq 0 (length m)) = spec_kept_cols df.
Proof.
  intros Hwf m. pose proof (wf_dropna_rows df Hwf) as [_ Hr].
  simpl in Hr. change (select (notna_any_rows (data df)) (data df))
    with (data (dropna_rows df)) in Hr.
  unfold m. rewrite (length_notna_any_cols _ _ Hr).
  unfold spec_kept_cols. apply filter_ext. intros j.
  rewrite (nth_notna_any_cols _ _ j Hr).
  rewrite (data_dropna_rows_by_position df Hwf).
  rewrite existsb_map_comp, existsb_negb_forallb. f_equal.
  apply forallb_pointwise. intros i _. unfold cell_at.
  now rewrite is_empty_notna.
Qed.

End CleanSpec.

(** C5. [clean_table] returns the frame the specification describes: the
    rows that are not entirely empty, then of these the columns that are not
    entirely empty, each at its cell of the input and in increasing order of
    position, under the original column labels and under row labels
    renumbered from 0.  (The result is a new value: the argument of a
    function is not changed.) *)
Theorem clean_table_correct (PV : PyValues) (df : DataFrame) :
  wf_frame df ->
  clean_table df = spec_clean df
  /\ StronglySorted lt (spec_kept_rows df)
  /\ StronglySorted lt (spec_kept_cols df).
Proof.
  intros Hwf. split; [|split; apply filter_seq_sorted].
  pose proof (kept_cols_are_mask df Hwf) as Hcs.
  pose proof (data_dropna_rows_by_position df Hwf) as Hrs.
  pose proof (wf_dropna_rows df Hwf) as [Hi1 Hr1].
  cbv zeta in Hcs.
  unfold clean_table, reset_index, dropna_cols, spec_clean.
  cbn [index columns data].
  change (columns (dropna_rows df)) with (columns df).
  set (m := notna_any_cols (length (columns df))
              (data (dropna_rows df))) in *.
  assert (Hm : length m = length (columns df))
    by (unfold m; now apply length_notna_any_cols).
  f_equal.
  - rewrite Hi1, Hrs. now rewrite length_map.
  - rewrite (select_by_position 0 m (columns df)) by (now rewrite Hm).
    now rewrite Hcs.
  - rewrite Hrs, map_map. apply map_ext_in. intros i Hi.
    rewrite (select_by_position CEmpty m (nth i (data df) [])).
    + now rewrite Hcs.
    + rewrite Hm. apply wf_row_length; [assumption|].
      now apply kept_rows_in_range.
Qed.

Lemma clean_table_correct_witness :
  wf_frame Demo.sparse
  /\ spec_kept_rows Demo.sparse = [0; 2]
  /\ spec_kept_cols Demo.sparse = [0; 2]
  /\ clean_table Demo.sparse = spec_clean Demo.sparse.
Proof.
  assert (Hwf : wf_frame Demo.sparse)
    by (split; [reflexivity | repeat constructor]).
  split; [exact Hwf|]. split; [reflexivity|]. split; [reflexivity|].
  exact (proj1 (clean_table_correct RefValues Demo.sparse Hwf)).
Defined.

(** ** Slices of a sheet *)

Section SliceFacts.

Context {A : Type}.
Implicit Types (l : list A).

Lemma skipn_nth_cons (d : A) l : forall j,
  j < length l -> skipn j l = nth j l d :: skipn (S j) l.
Proof.
  induction l as [|x l IH]; intros j Hj; simpl in Hj; [lia|].
  destruct j as [|j]; [reflexivity|].
  simpl. apply IH. lia.
Qed.

Lemma skipn_cons_inv (d : A) l (j : nat) (x : A) (rest : list A) :
  skipn j l = x :: rest ->
  j < length l /\ x = nth j l d /\ skipn (S j) l = rest.
Proof.
  intros H.
  assert (Hj : j < length l).
  { destruct (Nat.lt_ge_cases j (length l)) as [Hlt|Hge]; [exact Hlt|].
    rewrite (skipn_all2 l Hge) in H. discriminate. }
  rewrite (skipn_nth_cons d l j Hj) in H. injection H as H1 H2.
  now repeat split.
Qed.

(** [l[j : j + len]] holds the entries at the positions [j], ...,
    [j + len - 1]. *)
Lemma slice_by_position (d : A) l (len : nat) : forall j,
  j + len <= length l ->
  firstn len (skipn j l) = map (fun i => nth i l d) (seq j len).
Proof.
  induction len as [|len IH]; intros j Hj; [reflexivity|].
  rewrite (skipn_nth_cons d l j) by lia. cbn [firstn seq map]. f_equal.
  apply IH. lia.
Qed.

Lemma py_slice_to (d : A) l (j k : nat) :
  k <= length l ->
  py_slice j (Some k) l = map (fun i => nth i l d) (seq j (k - j)).
Proof.
  intros Hk. unfold py_slice.
  destruct (Nat.le_gt_cases j k) as [Hjk|Hjk].
  - apply slice_by_position. lia.
  - replace (k - j) with 0 by lia. reflexivity.
Qed.

Lemma py_slice_from (d : A) l (j : nat) :
  py_slice j None l = map (fun i => nth i l d) (seq j (length l - j)).
Proof.
  unfold py_slice.
  destruct (Nat.le_gt_cases j (length l)) as [Hj|Hj].
  - rewrite <- (slice_by_position d l (length l - j) j) by lia.
    symmetry. apply firstn_all2. rewrite length_skipn. lia.
  - replace (length l - j) with 0 by lia.
    apply skipn_all2. lia.
Qed.

End SliceFacts.

Lemma map_nth_of_seq (n : nat) (l : list nat) :
  (forall i, In i l -> i < n) ->
  map (fun i => nth i (seq 0 n) 0) l = l.
Proof.
  intros H. transitivity (map (fun i : nat => i) l); [|apply map_id].
  apply map_ext_in. intros i Hi. now rewrite seq_nth by auto.
Qed.

(** ** [identify_tables_in_sheet] *)

Section SegmenterFacts.

Context {PV : PyValues}.
Import PyStr PyStrFacts PyDict PyDictFacts.
Implicit Types (g : Grid) (row : Row) (st : ScanState).

(** The test of the scan is the marker test of the specification. *)
Lemma header_test_is_marker row :
  header_test (first_cell_of row) = spec_is_marker row.
Proof.
  destruct row as [|[|s|x|v] row]; simpl; try reflexivity.
  apply truthy_eqb.
Qed.

Lemma header_name_is_marker_name row :
  header_name (first_cell_of row) = spec_marker_name row.
Proof. now destruct row as [|[|s|x|v] row]. Qed.

Lemma marker_name_truthy row :
  spec_is_marker row = true -> PyStr.truthy (spec_marker_name row) = true.
Proof.
  destruct row as [|[|s|x|v] row]; simpl; try discriminate.
  now rewrite truthy_eqb.
Qed.

Lemma iloc_rows_to g (j k : nat) :
  k <= length g ->
  iloc_rows j (Some k) (read_excel g) = spec_subgrid g j k.
Proof.
  intros Hk. unfold iloc_rows, spec_subgrid, read_excel.
  cbn [index columns data]. f_equal.
  - rewrite (py_slice_to 0) by (now rewrite length_seq).
    apply map_nth_of_seq. intros i Hi. apply in_seq in Hi. lia.
  - now apply py_slice_to.
Qed.

Lemma iloc_rows_from g (j : nat) :
  iloc_rows j None (read_excel g) = spec_subgrid g j (length g).
Proof.
  unfold iloc_rows, spec_subgrid, read_excel.
  cbn [index columns data]. f_equal.
  - rewrite (py_slice_from 0), length_seq.
    apply map_nth_of_seq. intros i Hi. apply in_seq in Hi. lia.
  - apply py_slice_from.
Qed.

Lemma markers_from_step g (k len : nat) :
  markers_from g k (S len)
  = (if spec_is_marker (nth k g [])
     then [(k, spec_marker_name (nth k g []))] else [])
    ++ markers_from g (S k) len.
Proof.
  unfold markers_from. simpl.
  now destruct (spec_is_marker (nth k g [])).
Qed.

(** The scan of the rows from [k] on writes the tables of the open marker
    and of the markers still to come. *)
Lemma scan_rows_segments g : forall (rows : list Row) (k : nat) st,
  skipn k g = rows ->
  coherent st ->
  save_table (read_excel g)
    (fold_left (scan_row (read_excel g))
       (combine (seq k (length rows)) rows) st) None
  = write_all
      (map cleaned
         (spec_segments g (pending st ++ markers_from g k (length rows))))
      (scan_tables st).
Proof.
  induction rows as [|row rows IH]; intros k st Hk Hst.
  - simpl. unfold markers_from. simpl. rewrite app_nil_r.
    unfold save_table, pending, coherent in *.
    destruct (current_table_name st) as [name|],
             (current_table_start st) as [start|];
      try reflexivity; try contradiction.
    rewrite Hst. simpl. now rewrite iloc_rows_from.
  - apply (skipn_cons_inv (A := Row) []) in Hk as (Hlt & Hrow & Hk').
    cbn [length seq combine fold_left].
    rewrite markers_from_step, <- Hrow.
    unfold scan_row at 2.
    rewrite header_test_is_marker, header_name_is_marker_name.
    destruct (spec_is_marker row) eqn:Em.
    + rewrite IH; [|exact Hk'|exact (marker_name_truthy row Em)].
      cbn [scan_tables pending current_table_name current_table_start].
      unfold save_table, pending, coherent in *.
      destruct (current_table_name st) as [name|],
               (current_table_start st) as [start|];
        try reflexivity; try contradiction.
      rewrite Hst. simpl. rewrite iloc_rows_to by lia. reflexivity.
    + rewrite IH by assumption. reflexivity.
Qed.

Lemma write_all_truthy {V : Type} (ws : list (string * V)) : forall d,
  PyDict.truthy d = true \/ ws <> [] ->
  PyDict.truthy (write_all ws d) = true.
Proof.
  induction ws as [|[k v] ws IH]; intros d [H|H]; simpl;
    try assumption; try congruence;
    apply IH; left; apply set_not_empty.
Qed.

Lemma header_test_not_object (c : Cell) :
  is_object_cell c = false -> header_test c = false.
Proof. now destruct c. Qed.

Lemma scan_rows_without_header (df : DataFrame) (rows : list Row) :
  Forall (fun row => header_test (first_cell_of row) = false) rows ->
  forall (idx : list nat) st,
    fold_left (scan_row df) (combine idx rows) st = st.
Proof.
  induction 1 as [|row rows Hrow _ IH]; intros [|i idx] st; try reflexivity.
  simpl. rewrite Hrow. apply IH.
Qed.

Lemma rows_without_object_cell (rows : list Row) :
  existsb (existsb is_object_cell) rows = false ->
  Forall (fun row => header_test (first_cell_of row) = false) rows
  /\ Forall (fun row => header_test (first_cell_of row) = false)
       (map (map astype_float) rows).
Proof.
  induction rows as [|row rows IH]; simpl; intros H;
    [split; constructor|].
  apply orb_false_iff in H as [Hrow Hrows].
  destruct (IH Hrows) as [IH1 IH2].
  assert (Hc : is_object_cell (first_cell_of row) = false).
  { destruct row as [|c row]; [reflexivity|]. simpl in Hrow.
    now apply orb_false_iff in Hrow as [Hc _]. }
  split; constructor; try assumption.
  - now apply header_test_not_object.
  - rewrite first_cell_astype_float. apply header_test_not_object.
    now destruct (first_cell_of row).
Qed.

(** The scan sees the same markers in the rows as read and in the stored
    rows: a frame that is read at another dtype holds no text. *)
Lemma scan_iterrows (df : DataFrame) st :
  fold_left (scan_row df) (iterrows df) st
  = fold_left (scan_row df) (combine (index df) (data df)) st.
Proof.
  unfold iterrows, df_values.
  destruct (existsb (existsb is_object_cell) (data df)) eqn:Eo;
    [reflexivity|].
  destruct (rows_without_object_cell _ Eo) as [H1 H2].
  destruct (existsb (existsb is_float_cell) (data df)); [|reflexivity].
  now rewrite !scan_rows_without_header.
Qed.

(** The dictionary [identify_tables_in_sheet] returns is the one the
    tables of the sheet, written in order, leave. *)
Lemma identify_tables_in_sheet_spec g (sheet_name : string) :
  identify_tables_in_sheet (read_excel g) sheet_name
  = dict_of_writes (spec_sheet_tables sheet_name g).
Proof.
  unfold identify_tables_in_sheet.
  rewrite scan_iterrows.
  change (combine (index (read_excel g)) (data (read_excel g)))
    with (combine (seq 0 (length g)) g).
  rewrite (scan_rows_segments g g 0) by (reflexivity || exact I).
  cbn [pending current_table_name current_table_start scan_tables app].
  change (markers_from g 0 (length g)) with (spec_markers g).
  unfold spec_sheet_tables, dict_of_writes.
  destruct (spec_markers g) as [|mk ms] eqn:Ems.
  - simpl. unfold spec_fallback_name.
    rewrite truthy_eqb. now destruct (String.eqb sheet_name EmptyString).
  - fold (write_all (map cleaned (spec_segments g (mk :: ms)))
            (@PyDict.empty DataFrame)).
    rewrite write_all_truthy; [reflexivity|].
    right. destruct mk as [j name]. discriminate.
Qed.

End SegmenterFacts.

(** C2. The scan of a sheet uses the marker test of the specification (first
    cell not empty, text, not blank once trimmed), and the dictionary it
    returns is the one left by writing, top to bottom, the table of each
    marker: named by the trimmed marker text, holding the cleaned rows from
    its marker up to the next marker, or up to the end of the sheet for the
    last marker. *)
Theorem identify_tables_in_sheet_correct
    (PV : PyValues) (g : Grid) (sheet_name : string) :
  (forall row, header_test (first_cell_of row) = spec_is_marker row)
  /\ (forall row, header_name (first_cell_of row) = spec_marker_name row)
  /\ identify_tables_in_sheet (read_excel g) sheet_name
     = dict_of_writes
         (match spec_markers g with
          | [] => [(spec_fallback_name sheet_name, clean_table (read_excel g))]
          | ms => map cleaned (spec_segments g ms)
          end).
Proof.
  split; [exact header_test_is_marker|].
  split; [exact header_name_is_marker_name|].
  apply identify_tables_in_sheet_spec.
Qed.

(** The sheet [Demo.budget]: markers at rows 0, 3 and 4. *)
Example budget_markers :
  spec_markers Demo.budget = [(0, "INPUTS"); (3, "Revenue"); (4, "Costs")].
Proof. reflexivity. Qed.

Example budget_tables :
  identify_tables_in_sheet (read_excel Demo.budget) "Budget"
  = [ ("INPUTS", Demo.inputs_table);
      ("Revenue",
       {| index := [0]; columns := [0; 1; 2];
          data := [[CText " Revenue "; CText "100"; CText "200"]] |});
      ("Costs",
       {| index := [0]; columns := [0; 1; 2];
          data := [[CText "Costs"; CText "-50"; CText "-30"]] |}) ].
Proof. reflexivity. Qed.

Section FallbackFacts.

Context {PV : PyValues}.

Lemma no_markers (g : Grid) :
  Forall (fun row => spec_is_marker row = false) g -> spec_markers g = [].
Proof.
  intros H. unfold spec_markers.
  rewrite (filter_ext_in _ (fun _ => false)).
  - now induction (seq 0 (length g)).
  - intros i Hi. apply in_seq in Hi.
    apply (proj1 (Forall_forall _ _) H). apply nth_In. lia.
Qed.

End FallbackFacts.

(** C8. A sheet without marker rows yields exactly one table: the whole
    sheet, cleaned, under the name ["Sheet_<sheet name>"], or under
    ["Default_Table"] when the sheet name is empty. *)
Theorem sheet_without_markers_one_table
    (PV : PyValues) (g : Grid) (sheet_name : string) :
  Forall (fun row => spec_is_marker row = false) g ->
  identify_tables_in_sheet (read_excel g) sheet_name
  = [ (if String.eqb sheet_name EmptyString then "Default_Table"
       else ("Sheet_" ++ sheet_name)%string,
       clean_table (read_excel g)) ].
Proof.
  intros H. rewrite identify_tables_in_sheet_spec.
  unfold spec_sheet_tables. now rewrite (no_markers g H).
Qed.

Lemma sheet_without_markers_one_table_witness :
  Forall (fun row => spec_is_marker row = false) Demo.rates
  /\ identify_tables_in_sheet (read_excel Demo.rates) "Rates"
     = [ ("Sheet_Rates",
          {| index := [0; 1]; columns := [0; 1];
             data := [ [Demo.num 1; CText "5%"];
                       [Demo.num 2; CText "n/a"] ] |}) ]
  /\ identify_tables_in_sheet (read_excel Demo.rates) EmptyString
     = [ ("Default_Table", clean_table (read_excel Demo.rates)) ].
Proof.
  assert (H : Forall (fun row => spec_is_marker row = false) Demo.rates)
    by (repeat constructor).
  split; [exact H|]. split.
  - rewrite (sheet_without_markers_one_table RefValues Demo.rates "Rates" H).
    reflexivity.
  - exact (sheet_without_markers_one_table RefValues Demo.rates EmptyString H).
Defined.

(** ** [process_tables] and the store *)

Section StoreFacts.

Context {PV : PyValues}.
Import PyDict PyDictFacts.

Lemma for_each_run {A : Type} (body : A -> M unit)
      (F : A -> ExcelProcessor -> ExcelProcessor) :
  (forall x self, body x self = (inr tt, F x self)) ->
  forall (l : list A) self,
    for_each l body self = (inr tt, fold_left (fun s x => F x s) l self).
Proof.
  intros Hb. induction l as [|x l IH]; intros self; simpl; [reflexivity|].
  unfold bind. now rewrite Hb, IH.
Qed.

Lemma fold_tables_update (f : string * DataFrame -> dict DataFrame)
      (l : list (string * DataFrame)) : forall self,
  fold_left
    (fun s it => {| excel_data := excel_data s;
                    tables := update (tables s) (f it) |}) l self
  = {| excel_data := excel_data self;
       tables := fold_left (fun T it => update T (f it)) l (tables self) |}.
Proof.
  induction l as [|it l IH]; intros self; simpl; [now destruct self|].
  now rewrite IH.
Qed.

Lemma fold_excel_data_set (l : list (string * Grid)) : forall self,
  fold_left
    (fun s it => {| excel_data := set (fst it) (read_excel (snd it))
                                    (excel_data s);
                    tables := tables s |}) l self
  = {| excel_data := write_all (loaded_sheets l) (excel_data self);
       tables := tables self |}.
Proof.
  induction l as [|it l IH]; intros self; simpl; [now destruct self|].
  now rewrite IH.
Qed.

Lemma process_tables_run (self : ExcelProcessor) :
  process_tables self
  = (inr tt, {| excel_data := excel_data self;
                tables := built_tables (items (excel_data self)) |}).
Proof.
  unfold process_tables, bind, get_self, put_self.
  rewrite (for_each_run _
             (fun it s =>
                {| excel_data := excel_data s;
                   tables := update (tables s)
                               (identify_tables_in_sheet (snd it) (fst it)) |}))
    by (now intros [sheet_name df] s).
  now rewrite fold_tables_update.
Qed.

Lemma new_processor_run (workbook : list (string * Grid)) :
  new_processor workbook
  = (inr tt,
     {| excel_data := write_all (loaded_sheets workbook) empty;
        tables := built_tables
                    (items (write_all (loaded_sheets workbook) empty)) |}).
Proof.
  unfold new_processor, load_excel_data, bind.
  rewrite (for_each_run _
             (fun it s =>
                {| excel_data := set (fst it) (read_excel (snd it))
                                   (excel_data s);
                   tables := tables s |}))
    by (now intros [sheet_name cells] s).
  rewrite fold_excel_data_set, process_tables_run. reflexivity.
Qed.

End StoreFacts.

Section StoreLookup.

Context {PV : PyValues}.
Import PyDict PyDictFacts.

Lemma set_fresh {V : Type} (d : dict V) (k : string) (v : V) :
  ~ In k (keys d) -> set k v d = d ++ [(k, v)].
Proof.
  induction d as [|[k' v'] d IH]; simpl; intros Hn; [reflexivity|].
  destruct (String.eqb k' k) eqn:E.
  - apply String.eqb_eq in E. tauto.
  - rewrite IH by tauto. reflexivity.
Qed.

Lemma write_all_fresh {V : Type} (ws : list (string * V)) : forall d,
  NoDup (keys d ++ map fst ws) -> write_all ws d = d ++ ws.
Proof.
  induction ws as [|[k v] ws IH]; intros d Hn; simpl.
  - now rewrite app_nil_r.
  - assert (Hk : ~ In k (keys d)).
    { apply NoDup_remove_2 in Hn. intros Hin. apply Hn.
      apply in_or_app. now left. }
    rewrite (set_fresh d k v Hk), IH.
    + now rewrite <- app_assoc.
    + unfold keys in *. rewrite map_app, <- app_assoc. exact Hn.
Qed.

Lemma loaded_sheets_dict (workbook : list (string * Grid)) :
  NoDup (map fst workbook) ->
  write_all (loaded_sheets workbook) empty = loaded_sheets workbook.
Proof.
  intros Hn. rewrite write_all_fresh; [reflexivity|]. simpl.
  unfold loaded_sheets. rewrite map_map. exact Hn.
Qed.

Lemma last_write_In {V : Type} (k : string) (v : V) (ws : list (string * V)) :
  last_write k ws = Some v -> In (k, v) ws.
Proof.
  induction ws as [|[k' v'] ws IH]; simpl; [discriminate|].
  destruct (last_write k ws) as [v0|].
  - intros E. right. apply IH. exact E.
  - destruct (String.eqb k' k) eqn:E; [|discriminate].
    apply String.eqb_eq in E. intros H. injection H as <-. left. now subst.
Qed.

Lemma In_set {V : Type} (d : dict V) (k k' : string) (v v' : V) :
  In (k, v) (set k' v' d) -> (k, v) = (k', v') \/ In (k, v) d.
Proof.
  induction d as [|[k0 v0] d IH]; simpl.
  - intros [H|[]]. left. now symmetry.
  - destruct (String.eqb k0 k') eqn:E; simpl.
    + apply String.eqb_eq in E. subst k0.
      intros [H|H]; [left; now symmetry | right; now right].
    + intros [H|H]; [right; now left|].
      destruct (IH H) as [H'|H']; [now left | right; now right].
Qed.

Lemma In_write_all {V : Type} (ws : list (string * V)) (k : string) (v : V) :
  forall d, In (k, v) (write_all ws d) -> In (k, v) ws \/ In (k, v) d.
Proof.
  induction ws as [|[k' v'] ws IH]; intros d H; simpl in *; [now right|].
  destruct (IH _ H) as [H'|H']; [left; now right|].
  destruct (In_set _ _ _ _ _ H') as [E|E]; [left; left; now symmetry|].
  now right.
Qed.

(** A lookup in the store finds the last table written under the name,
    over the sheets in order and the tables of each sheet in order. *)
Lemma get_fold_update (f : string * DataFrame -> dict DataFrame)
      (sheets : list (string * DataFrame)) (name : string) : forall T,
  get name (fold_left (fun T it => update T (f it)) sheets T)
  = match last_write name (flat_map (fun it => items (f it)) sheets) with
    | Some v => Some v
    | None => get name T
    end.
Proof.
  induction sheets as [|it sheets IH]; intros T; simpl; [reflexivity|].
  rewrite IH, last_write_app. unfold update.
  destruct (last_write name (flat_map _ sheets)); [reflexivity|].
  apply get_write_all.
Qed.

Lemma last_write_dict_of_writes (ws : list (string * DataFrame))
      (name : string) :
  last_write name (items (dict_of_writes ws)) = last_write name ws.
Proof.
  unfold dict_of_writes. fold (write_all ws (@empty DataFrame)).
  rewrite last_write_items.
  - rewrite get_write_all. now destruct (last_write name ws).
  - apply NoDup_keys_write_all. constructor.
Qed.

Lemma last_write_loaded (workbook : list (string * Grid)) (name : string) :
  last_write name
    (flat_map (fun it => items (identify_tables_in_sheet (snd it) (fst it)))
       (loaded_sheets workbook))
  = last_write name (spec_workbook_tables workbook).
Proof.
  induction workbook as [|[sheet_name g] wb IH]; [reflexivity|].
  unfold spec_workbook_tables in *. simpl.
  rewrite !last_write_app, IH, identify_tables_in_sheet_spec.
  now rewrite last_write_dict_of_writes.
Qed.

Lemma store_lookup (workbook : list (string * Grid)) (name : string) :
  NoDup (map fst workbook) ->
  get name (tables (snd (new_processor workbook)))
  = last_write name (spec_workbook_tables workbook).
Proof.
  intros Hn. rewrite new_processor_run. simpl.
  rewrite (loaded_sheets_dict workbook Hn).
  unfold built_tables, items. rewrite get_fold_update, last_write_loaded.
  now destruct (last_write name (spec_workbook_tables workbook)).
Qed.

(** Every table of the store is a table of some sheet of the workbook. *)
Lemma store_provenance (workbook : list (string * Grid))
      (name : string) (df : DataFrame) :
  get name (tables (snd (new_processor workbook))) = Some df ->
  exists sheet_name g,
    In (sheet_name, g) workbook /\
    In (name, df) (spec_sheet_tables sheet_name g).
Proof.
  rewrite new_processor_run. simpl. unfold built_tables.
  rewrite get_fold_update. simpl.
  destruct (last_write name _) as [v|] eqn:E; [|discriminate].
  intros H. injection H as ->.
  apply last_write_In, in_flat_map in E as ([sheet_name df0] & Hs & Ht).
  apply In_write_all in Hs as [Hs|[]].
  apply in_map_iff in Hs as ([sheet g] & Heq & Hin).
  injection Heq as -> <-. exists sheet_name, g. split; [exact Hin|].
  simpl in Ht. rewrite identify_tables_in_sheet_spec in Ht.
  apply In_write_all in Ht as [Ht|[]]. exact Ht.
Qed.

End StoreLookup.

(** C9. When the tables a workbook yields, sheet after sheet and top to
    bottom within a sheet, hold the same name twice, and no later table has
    that name, the store maps the name to the later table: the last write
    wins. *)
Theorem duplicate_name_last_wins
    (PV : PyValues) (workbook : list (string * Grid)) (name : string)
    (earlier later : DataFrame)
    (before between after : list (string * DataFrame)) :
  NoDup (map fst workbook) ->
  spec_workbook_tables workbook
  = before ++ (name, earlier) :: between ++ (name, later) :: after ->
  ~ In name (map fst after) ->
  PyDict.get name (tables (snd (new_processor workbook))) = Some later.
Proof.
  intros Hn Hw Ha. rewrite (store_lookup workbook name Hn), Hw.
  rewrite PyDictFacts.last_write_app. simpl.
  rewrite PyDictFacts.last_write_app. simpl.
  rewrite (PyDictFacts.last_write_absent _ name after Ha).
  now rewrite String.eqb_refl.
Qed.

Lemma duplicate_name_last_wins_witness :
  NoDup (map fst Demo.workbook)
  /\ map fst (spec_workbook_tables Demo.workbook)
     = ["INPUTS"; "Revenue"; "Costs"; "Sheet_Rates"; "Costs"; "Costs"]
  /\ PyDict.get "Costs" (tables Demo.processor)
     = Some {| index := [0]; columns := [0; 1];
               data := [[CText "Costs "; Demo.num 9]] |}.
Proof.
  assert (Hn : NoDup (map fst Demo.workbook)).
  { repeat (constructor; [simpl; intuition discriminate|]). constructor. }
  split; [exact Hn|]. split; [reflexivity|].
  apply (duplicate_name_last_wins RefValues Demo.workbook "Costs"
           {| index := [0]; columns := [0; 1];
              data := [[CText "Costs"; Demo.num 7]] |}
           {| index := [0]; columns := [0; 1];
              data := [[CText "Costs "; Demo.num 9]] |}
           (firstn 4 (spec_workbook_tables Demo.workbook)) [] [] Hn).
  - reflexivity.
  - simpl. tauto.
Defined.

(** ** Rows of the tables in the store *)

Section TableRows.

Context {PV : PyValues}.
Implicit Types (g : Grid) (df : DataFrame).

Lemma length_data_clean_table df :
  length (data (clean_table df))
  = length (filter (existsb notna) (data df)).
Proof.
  unfold clean_table, reset_index, dropna_cols. cbn [data].
  now rewrite length_map, data_dropna_rows.
Qed.

Lemma clean_table_keeps_row df (row : Row) :
  In row (data df) -> existsb notna row = true ->
  1 <= length (data (clean_table df)).
Proof.
  intros Hin Hv. rewrite length_data_clean_table.
  assert (H : In row (filter (existsb notna) (data df)))
    by (apply filter_In; now split).
  destruct (filter (existsb notna) (data df)); [destruct H | simpl; lia].
Qed.

Lemma marker_row_has_value (row : Row) :
  spec_is_marker row = true -> existsb notna row = true.
Proof. destruct row as [|[|s|x|v] row]; simpl; congruence. Qed.

(** The table of a marker starts at its marker row, which cleaning
    keeps. *)
Lemma segments_have_rows g : forall (ms : list (nat * string)),
  StronglySorted lt (map fst ms) ->
  Forall (fun p => fst p < length g /\
                   spec_is_marker (nth (fst p) g []) = true) ms ->
  Forall (fun t => 1 <= length (data (clean_table (snd t))))
    (spec_segments g ms).
Proof.
  induction ms as [|[j name] ms IH]; intros Hs Hm; simpl; [constructor|].
  inversion Hs as [|? ? Hs' Hlt]; subst.
  inversion Hm as [|? ? [Hj Hmark] Hm']; subst. simpl in Hj, Hmark.
  constructor; [|now apply IH].
  set (stop := match ms with [] => length g | (i, _) :: _ => i end).
  assert (Hstop : j < stop).
  { unfold stop. destruct ms as [|[i name'] ms']; [exact Hj|].
    inversion Hlt; subst. assumption. }
  apply (clean_table_keeps_row _ (nth j g []));
    [|now apply marker_row_has_value].
  simpl. apply in_map_iff. exists j. split; [reflexivity|].
  apply in_seq. lia.
Qed.

Lemma markers_sorted g : StronglySorted lt (map fst (spec_markers g)).
Proof.
  unfold spec_markers. rewrite map_map. simpl. rewrite map_id.
  apply filter_seq_sorted.
Qed.

Lemma markers_are_markers g :
  Forall (fun p => fst p < length g /\
                   spec_is_marker (nth (fst p) g []) = true)
    (spec_markers g).
Proof.
  unfold spec_markers. apply Forall_forall. intros p Hp.
  apply in_map_iff in Hp as (i & <- & Hi). simpl.
  apply filter_In in Hi as [Hi Hm]. apply in_seq in Hi. split; [lia|exact Hm].
Qed.

Lemma sheet_tables_have_rows g (sheet_name : string) :
  has_value g = true ->
  Forall (fun t => 1 <= length (data (snd t)))
    (spec_sheet_tables sheet_name g).
Proof.
  intros Hv. unfold spec_sheet_tables.
  pose proof (segments_have_rows g (spec_markers g)
                (markers_sorted g) (markers_are_markers g)) as Hseg.
  destruct (spec_markers g) as [|mk ms].
  - constructor; [|constructor]. simpl.
    apply existsb_exists in Hv as (row & Hin & Hrow).
    now apply (clean_table_keeps_row (read_excel g) row).
  - apply Forall_map. exact Hseg.
Qed.

End TableRows.

(** *** The frames in the store are well formed *)

Section StoreFrames.

Context {PV : PyValues}.
Implicit Types (g : Grid) (df : DataFrame).

Lemma wf_read_excel g : rectangular g -> wf_frame (read_excel g).
Proof.
  intros H. split; simpl; [apply length_seq|].
  eapply Forall_impl; [|exact H]. simpl. intros r Hr.
  now rewrite length_seq.
Qed.

Lemma wf_spec_subgrid g (j stop : nat) :
  rectangular g -> stop <= length g -> wf_frame (spec_subgrid g j stop).
Proof.
  intros H Hs. split; simpl; [now rewrite length_map|].
  apply Forall_forall. intros r Hr.
  apply in_map_iff in Hr as (i & <- & Hi). apply in_seq in Hi.
  rewrite length_seq.
  apply (proj1 (Forall_forall _ _) H). apply nth_In. lia.
Qed.

Lemma segments_wf g : forall (ms : list (nat * string)),
  rectangular g ->
  Forall (fun p => fst p < length g /\
                   spec_is_marker (nth (fst p) g []) = true) ms ->
  Forall (fun t => wf_frame (snd t)) (spec_segments g ms).
Proof.
  intros ms Hg. induction ms as [|[j name] ms IH]; intros Hm; simpl;
    [constructor|].
  inversion Hm as [|? ? _ Hm']; subst.
  constructor; [|now apply IH]. simpl.
  apply wf_spec_subgrid; [exact Hg|].
  destruct ms as [|[i name'] ms']; [lia|].
  inversion Hm' as [|? ? [Hi _] _]; subst. simpl in Hi. lia.
Qed.

Lemma sheet_tables_wf g (sheet_name : string) :
  rectangular g ->
  Forall (fun t => wf_frame (snd t)) (spec_sheet_tables sheet_name g).
Proof.
  intros Hg. unfold spec_sheet_tables.
  pose proof (segments_wf g (spec_markers g) Hg (markers_are_markers g))
    as Hseg.
  destruct (spec_markers g) as [|mk ms].
  - constructor; [|constructor]. simpl.
    now apply wf_clean_table, wf_read_excel.
  - apply Forall_map. eapply Forall_impl; [|exact Hseg].
    intros t Ht. simpl. now apply wf_clean_table.
Qed.

(** The frames of the store satisfy the hypothesis under which the
    queries and the cleaner are specified. *)
Lemma store_tables_wf (workbook : list (string * Grid))
      (name : string) df :
  Forall (fun it => rectangular (snd it)) workbook ->
  PyDict.get name (tables (snd (new_processor workbook))) = Some df ->
  wf_frame df.
Proof.
  intros Hr Hg.
  destruct (store_provenance workbook name df Hg)
    as (sheet_name & g & Hin & Ht).
  pose proof (proj1 (Forall_forall _ _) Hr _ Hin) as Hg'. simpl in Hg'.
  exact (proj1 (Forall_forall _ _)
           (sheet_tables_wf g sheet_name Hg') _ Ht).
Qed.

End StoreFrames.

Section BlankSheetFacts.

Context {PV : PyValues}.

Lemma no_value_no_marker (g : Grid) :
  has_value g = false -> Forall (fun row => spec_is_marker row = false) g.
Proof.
  intros H. apply Forall_forall. intros row Hin.
  destruct (spec_is_marker row) eqn:Em; [|reflexivity].
  apply marker_row_has_value in Em.
  assert (Hv : has_value g = true)
    by (apply existsb_exists; now exists row).
  congruence.
Qed.

Lemma no_value_no_rows (g : Grid) :
  has_value g = false -> data (clean_table (read_excel g)) = [].
Proof.
  intros H. apply length_zero_iff_nil.
  rewrite length_data_clean_table. simpl.
  assert (E : filter (existsb notna) g = []).
  { unfold has_value in H. induction g as [|row g IH]; [reflexivity|].
    simpl in *. apply orb_false_iff in H as [Hrow Hg].
    rewrite Hrow. now apply IH. }
  now rewrite E.
Qed.

End BlankSheetFacts.

(** C3, as the program has it. Every table in the store has at least one
    row, except the table of a sheet that holds no value at all: such a
    sheet has no marker, its one table has the fallback name, and that table
    has no row. *)
Theorem store_tables_have_rows_except_blank_sheets
    (PV : PyValues) (workbook : list (string * Grid))
    (name : string) (df : DataFrame) :
  PyDict.get name (tables (snd (new_processor workbook))) = Some df ->
  1 <= length (data df)
  \/ (data df = []
      /\ exists sheet_name g,
           In (sheet_name, g) workbook
           /\ has_value g = false
           /\ name = spec_fallback_name sheet_name).
Proof.
  intros Hg.
  destruct (store_provenance workbook name df Hg)
    as (sheet_name & g & Hin & Ht).
  destruct (has_value g) eqn:Hv.
  - left. exact (proj1 (Forall_forall _ _)
                   (sheet_tables_have_rows g sheet_name Hv) _ Ht).
  - right. unfold spec_sheet_tables in Ht.
    rewrite (no_markers g (no_value_no_marker g Hv)) in Ht.
    destruct Ht as [E|[]]. injection E as <- <-.
    split; [now apply no_value_no_rows|].
    exists sheet_name, g. now repeat split.
Qed.

Lemma store_tables_have_rows_except_blank_sheets_witness :
  PyDict.get "INPUTS"
    (tables (snd (new_processor Demo.workbook_with_blank)))
  = Some Demo.inputs_table
  /\ (1 <= length (data Demo.inputs_table)
      \/ (data Demo.inputs_table = []
          /\ exists sheet_name g,
               In (sheet_name, g) Demo.workbook_with_blank
               /\ has_value g = false
               /\ "INPUTS" = spec_fallback_name sheet_name)).
Proof.
  assert (Hg : PyDict.get "INPUTS"
                 (tables (snd (new_processor Demo.workbook_with_blank)))
               = Some Demo.inputs_table) by reflexivity.
  split; [exact Hg|].
  exact (store_tables_have_rows_except_blank_sheets RefValues
           Demo.workbook_with_blank "INPUTS" Demo.inputs_table Hg).
Defined.

(** C3, as stated, fails: a sheet without cells has no marker, so it gives
    one table, and that table has no row. *)
Lemma blank_sheet_table_has_no_row :
  PyDict.get "Sheet_Blank"
    (tables (snd (new_processor Demo.workbook_with_blank)))
  = Some {| index := []; columns := []; data := [] |}
  /\ ~ store_tables_have_rows (snd (new_processor Demo.workbook_with_blank)).
Proof.
  assert (E : PyDict.get "Sheet_Blank"
                (tables (snd (new_processor Demo.workbook_with_blank)))
              = Some {| index := []; columns := []; data := [] |})
    by reflexivity.
  split; [exact E|].
  intros H. specialize (H _ _ E). simpl in H. lia.
Qed.

(** * Further properties of the program *)

(** ** Row names *)

Section RowNameFacts.

Context {PV : PyValues}.

Lemma length_row_labels (g : Grid) :
  length (flat_map (fun row => match spec_label row with
                               | Some l => [l]
                               | None => []
                               end) g) <= length g
  /\ (length (flat_map (fun row => match spec_label row with
                                   | Some l => [l]
                                   | None => []
                                   end) g) = length g
      <-> Forall (fun row => notna (first_cell_of row) = true) g).
Proof.
  induction g as [|row g [IHle IHeq]]; simpl.
  - split; [lia|]. split; intros; [constructor | reflexivity].
  - rewrite length_app.
    assert (Hl : spec_label row = None /\ notna (first_cell_of row) = false
                 \/ (exists l, spec_label row = Some l)
                    /\ notna (first_cell_of row) = true).
    { destruct row as [|c row]; simpl; [now left|].
      rewrite notna_is_empty. destruct (is_empty_cell c); simpl;
        [now left | right; split; [now eexists | reflexivity]]. }
    destruct Hl as [[-> Hn]|[[l ->] Hn]]; simpl.
    + split; [lia|]. split.
      * intros H. lia.
      * intros H. inversion H; subst. congruence.
    + split; [lia|]. split.
      * intros H. constructor; [exact Hn|]. apply IHeq. lia.
      * intros H. inversion H; subst. f_equal. now apply IHeq.
Qed.

End RowNameFacts.

(** X1. In a table of numbers only (no text, no raw value) that holds a
    float or an empty cell, the rows are read at dtype [float64]: an integer
    first cell is listed by [get_table_row_names] as the text of its float,
    and [calculate_row_sum] finds the row under that name. *)
Theorem integer_label_read_as_float
    (PV : PyValues) (self : ExcelProcessor) (table_name : string)
    (df : DataFrame) (x : Num) (cells : Row) (row_names : list string) :
  PyDict.get table_name (tables self) = Some df ->
  wf_frame df ->
  existsb (existsb is_object_cell) (data df) = false ->
  existsb (existsb is_float_cell) (data df) = true ->
  In (CNum x :: cells) (data df) ->
  fst (get_table_row_names table_name self) = inr row_names ->
  In (str_of_num (as_float x)) row_names
  /\ exists total,
       calculate_row_sum table_name (str_of_num (as_float x)) self
       = (inr total, self).
Proof.
  intros Hg Hwf Ho Hf Hin Hn.
  rewrite (get_table_row_names_spec self table_name df Hg Hwf) in Hn.
  simpl in Hn. injection Hn as <-.
  assert (Hv : df_values df = map (map astype_float) (data df))
    by (unfold df_values; now rewrite Ho, Hf).
  assert (Hrow : In (CNum (as_float x) :: map astype_float cells)
                   (df_values df)).
  { rewrite Hv. apply in_map_iff. now exists (CNum x :: cells). }
  split.
  - unfold spec_row_labels. apply in_flat_map. eexists.
    split; [exact Hrow|]. simpl. now left.
  - rewrite (calculate_row_sum_eq self table_name _ df Hg Hwf).
    unfold spec_sum_row.
    destruct (find _ (df_values df)) as [r|] eqn:Ef;
      [eexists; reflexivity|].
    exfalso. apply (find_none _ _ Ef) in Hrow. simpl in Hrow.
    now rewrite String.eqb_refl in Hrow.
Qed.

Lemma integer_label_read_as_float_witness :
  PyDict.get "Sheet_Counts" (tables Demo.counts_processor)
  = Some Demo.counts_table
  /\ wf_frame Demo.counts_table
  /\ fst (get_table_row_names "Sheet_Counts" Demo.counts_processor)
     = inr ["1.0"; "2.0"]
  /\ In "2.0" ["1.0"; "2.0"]
  /\ calculate_row_sum "Sheet_Counts" "2.0" Demo.counts_processor
     = (inr 6%float, Demo.counts_processor)
  /\ calculate_row_sum "Sheet_Counts" "2" Demo.counts_processor
     = (inl (HTTPException 404
               "Row '2' not found in table 'Sheet_Counts'"),
        Demo.counts_processor).
Proof.
  assert (Hg : PyDict.get "Sheet_Counts" (tables Demo.counts_processor)
               = Some Demo.counts_table) by reflexivity.
  assert (Hwf : wf_frame Demo.counts_table)
    by (split; [reflexivity | repeat constructor]).
  assert (Hn : fst (get_table_row_names "Sheet_Counts" Demo.counts_processor)
               = inr ["1.0"; "2.0"]) by reflexivity.
  split; [exact Hg|]. split; [exact Hwf|]. split; [exact Hn|].
  destruct (integer_label_read_as_float RefValues Demo.counts_processor
              "Sheet_Counts" Demo.counts_table (RefPy.IntNum 2)
              [Demo.flt 6] ["1.0"; "2.0"] Hg Hwf eq_refl eq_refl
              (or_intror (or_introl eq_refl)) Hn) as [Hin _].
  split; [exact Hin|]. split; reflexivity.
Defined.

(** X2. [get_table_row_names] never returns more names than the table has
    rows, and as many exactly when no row has an empty first cell. *)
Theorem row_names_count
    (PV : PyValues) (self : ExcelProcessor) (table_name : string)
    (df : DataFrame) (row_names : list string) :
  PyDict.get table_name (tables self) = Some df ->
  wf_frame df ->
  fst (get_table_row_names table_name self) = inr row_names ->
  length row_names <= length (data df)
  /\ (length row_names = length (data df)
      <-> Forall (fun row => notna (first_cell_of row) = true) (data df)).
Proof.
  intros Hg Hwf. rewrite (get_table_row_names_spec self table_name df Hg Hwf).
  simpl. intros E. injection E as <-. unfold spec_row_labels.
  destruct (length_row_labels (df_values df)) as [Hle Hiff].
  rewrite length_values in Hle, Hiff. split; [exact Hle|].
  rewrite Hiff.
  rewrite <- (Forall_map (fun row => notna (first_cell_of row))
                (fun b => b = true) (df_values df)).
  rewrite <- (Forall_map (fun row => notna (first_cell_of row))
                (fun b => b = true) (data df)).
  now rewrite values_first_cells_notna.
Qed.

Lemma row_names_count_witness :
  PyDict.get "INPUTS" (tables Demo.processor) = Some Demo.inputs_table
  /\ wf_frame Demo.inputs_table
  /\ fst (get_table_row_names "INPUTS" Demo.processor)
     = inr ["INPUTS"; "2024"]
  /\ length ["INPUTS"; "2024"] <= length (data Demo.inputs_table).
Proof.
  assert (Hg : PyDict.get "INPUTS" (tables Demo.processor)
               = Some Demo.inputs_table) by reflexivity.
  assert (Hwf : wf_frame Demo.inputs_table)
    by (split; [reflexivity | repeat constructor]).
  assert (Hr : fst (get_table_row_names "INPUTS" Demo.processor)
               = inr ["INPUTS"; "2024"]) by reflexivity.
  split; [exact Hg|]. split; [exact Hwf|]. split; [exact Hr|].
  exact (proj1 (row_names_count RefValues Demo.processor "INPUTS"
                  Demo.inputs_table ["INPUTS"; "2024"] Hg Hwf Hr)).
Defined.

(** X3. A cell that gives no number (empty, blank or unparsable text, a
    value [float] refuses) can be dropped from a row without changing the
    sum of the row. *)
Theorem sum_skips_cell_without_number
    (PV : PyValues) (left right : list Cell) (value : Cell)
    (numerical_sum : pyfloat) :
  try_float value = None ->
  fold_left add_value (left ++ value :: right) numerical_sum
  = fold_left add_value (left ++ right) numerical_sum.
Proof.
  intros H. rewrite !fold_left_app. simpl. f_equal.
  unfold add_value. rewrite H. now destruct (notna value).
Qed.

Lemma sum_skips_cell_without_number_witness :
  try_float (PV := RefValues) (CText "n/a") = None
  /\ fold_left (add_value (PV := RefValues))
       [CText "100"; CText "n/a"; CText "200"] PrimFloat.zero
     = 300%float.
Proof.
  assert (H : try_float (PV := RefValues) (CText "n/a") = None)
    by reflexivity.
  split; [exact H|].
  exact (eq_trans
           (sum_skips_cell_without_number RefValues [CText "100"]
              [CText "200"] (CText "n/a") PrimFloat.zero H)
           eq_refl).
Defined.

(** ** Table names *)

Section KeyOrderFacts.

Import PyDict PyDictFacts.

Lemma mem_existsb {V : Type} (d : dict V) (k : string) :
  mem k d = existsb (String.eqb k) (keys d).
Proof.
  unfold mem. induction d as [|[k' v'] d IH]; simpl; [reflexivity|].
  rewrite (String.eqb_sym k k').
  destruct (String.eqb k' k); [reflexivity | exact IH].
Qed.

Lemma keys_write_all {V : Type} (ws : list (string * V)) : forall d,
  keys (write_all ws d) = add_new (keys d) (map fst ws).
Proof.
  induction ws as [|[k v] ws IH]; intros d; simpl; [reflexivity|].
  now rewrite IH, keys_set, mem_existsb.
Qed.

Lemma in_keys_get {V : Type} (d : dict V) (k : string) :
  In k (keys d) <-> exists v, get k d = Some v.
Proof.
  induction d as [|[k' v'] d IH]; simpl.
  - split; [intros [] | intros [v H]; discriminate].
  - destruct (String.eqb k' k) eqn:E.
    + apply String.eqb_eq in E. split; [now eexists | now left].
    + apply String.eqb_neq in E. rewrite <- IH. tauto.
Qed.

Lemma existsb_eqb_In (k : string) (l : list string) :
  existsb (String.eqb k) l = true <-> In k l.
Proof.
  rewrite existsb_exists. split.
  - intros (x & Hx & E). apply String.eqb_eq in E. now subst.
  - intros H. exists k. split; [exact H | apply String.eqb_refl].
Qed.

Lemma add_new_app (seen a b : list string) :
  add_new seen (a ++ b) = add_new (add_new seen a) b.
Proof.
  revert seen. induction a as [|k a IH]; intros seen; simpl; [reflexivity|].
  apply IH.
Qed.

Lemma add_new_incl (a : list string) : forall seen k,
  In k seen -> In k (add_new seen a).
Proof.
  induction a as [|x a IH]; intros seen k H; simpl; [exact H|].
  apply IH. destruct (existsb (String.eqb x) seen); [exact H|].
  apply in_or_app. now left.
Qed.

Lemma add_new_holds (a : list string) (k : string) : forall seen,
  In k a -> In k (add_new seen a).
Proof.
  induction a as [|x a IH]; intros seen H; [destruct H|].
  simpl. destruct H as [->|H]; [|now apply IH].
  apply add_new_incl.
  destruct (existsb (String.eqb k) seen) eqn:E.
  - now apply existsb_eqb_In.
  - apply in_or_app. right. now left.
Qed.

(** Writing through a dictionary of the names first changes nothing in the
    order. *)
Lemma add_new_add_new (ks : list string) : forall seen a,
  add_new seen (add_new a ks) = add_new (add_new seen a) ks.
Proof.
  induction ks as [|k ks IH]; intros seen a; simpl; [reflexivity|].
  rewrite IH. f_equal.
  destruct (existsb (String.eqb k) a) eqn:Ea.
  - apply existsb_eqb_In in Ea.
    pose proof (add_new_holds a k seen Ea) as Hin.
    apply existsb_eqb_In in Hin. now rewrite Hin.
  - rewrite add_new_app. reflexivity.
Qed.

Lemma NoDup_keys_fold_update {V : Type} (f : string * V -> dict V)
      (sheets : list (string * V)) : forall T,
  NoDup (keys T) ->
  NoDup (keys (fold_left (fun T it => update T (f it)) sheets T)).
Proof.
  induction sheets as [|it sheets IH]; intros T HT; simpl; [exact HT|].
  apply IH. unfold update. now apply NoDup_keys_write_all.
Qed.

End KeyOrderFacts.

Section TableNameFacts.

Context {PV : PyValues}.
Import PyDict PyDictFacts.

Lemma keys_dict_of_writes (ws : list (string * DataFrame)) :
  keys (dict_of_writes ws) = first_appearances (map fst ws).
Proof.
  unfold dict_of_writes. fold (write_all ws (@empty DataFrame)).
  now rewrite keys_write_all.
Qed.

Lemma keys_built_tables (workbook : list (string * Grid)) : forall T,
  keys (fold_left
          (fun T it => update T (identify_tables_in_sheet (snd it) (fst it)))
          (loaded_sheets workbook) T)
  = add_new (keys T) (map fst (spec_workbook_tables workbook)).
Proof.
  induction workbook as [|[sheet_name g] wb IH]; intros T; [reflexivity|].
  unfold spec_workbook_tables in *. simpl.
  rewrite IH, map_app, add_new_app. f_equal.
  unfold update. rewrite keys_write_all.
  change (map fst (items (identify_tables_in_sheet (read_excel g) sheet_name)))
    with (keys (identify_tables_in_sheet (read_excel g) sheet_name)).
  rewrite identify_tables_in_sheet_spec, keys_dict_of_writes.
  unfold first_appearances. rewrite add_new_add_new. reflexivity.
Qed.

End TableNameFacts.

(** X4. After [process_tables], the names [get_table_names] lists are
    pairwise distinct, and a name is listed exactly when
    [get_table_row_names] finds its table. *)
Theorem table_names_distinct_and_found
    (PV : PyValues) (self : ExcelProcessor) (table_name : string) :
  exists names,
    get_table_names (snd (process_tables self))
    = (inr names, snd (process_tables self))
    /\ NoDup names
    /\ (In table_name names
        <-> exists row_names,
              get_table_row_names table_name (snd (process_tables self))
              = (inr row_names, snd (process_tables self))).
Proof.
  rewrite process_tables_run. simpl.
  eexists. split; [reflexivity|]. split.
  - unfold built_tables. apply NoDup_keys_fold_update. constructor.
  - rewrite in_keys_get.
    unfold get_table_row_names, bind, get_self, ret, raise. simpl.
    destruct (PyDict.get table_name _) as [df|].
    + split; [intros _ | intros _; now eexists].
      destruct (df_empty df); eexists; reflexivity.
    + split; [intros [v H]; discriminate | intros [r H]; discriminate].
Qed.

(** X5. [get_table_names] lists each name at the place of its first table,
    over the sheets in order and the tables of a sheet from top to bottom: a
    later table of the same name replaces the earlier one without moving the
    name. *)
Theorem table_names_in_order_of_first_appearance
    (PV : PyValues) (workbook : list (string * Grid)) :
  NoDup (map fst workbook) ->
  get_table_names (snd (new_processor workbook))
  = (inr (first_appearances (map fst (spec_workbook_tables workbook))),
     snd (new_processor workbook)).
Proof.
  intros Hn. unfold get_table_names, bind, get_self, ret.
  f_equal. f_equal. rewrite new_processor_run. simpl.
  rewrite (loaded_sheets_dict workbook Hn).
  unfold built_tables, PyDict.items. now rewrite keys_built_tables.
Qed.

Lemma table_names_in_order_of_first_appearance_witness :
  NoDup (map fst Demo.workbook)
  /\ map fst (spec_workbook_tables Demo.workbook)
     = ["INPUTS"; "Revenue"; "Costs"; "Sheet_Rates"; "Costs"; "Costs"]
  /\ get_table_names Demo.processor
     = (inr ["INPUTS"; "Revenue"; "Costs"; "Sheet_Rates"], Demo.processor).
Proof.
  assert (Hn : NoDup (map fst Demo.workbook)).
  { repeat (constructor; [simpl; intuition discriminate|]). constructor. }
  split; [exact Hn|]. split; [reflexivity|].
  exact (eq_trans
           (table_names_in_order_of_first_appearance RefValues
              Demo.workbook Hn) eq_refl).
Defined.

(** X6. [process_tables] builds the store from the loaded sheets alone: the
    tables held before are discarded, the sheets are left as they are, and
    running it again gives the same store. *)
Theorem process_tables_rebuilds
    (PV : PyValues) (self : ExcelProcessor) (stale : PyDict.dict DataFrame) :
  process_tables {| excel_data := excel_data self; tables := stale |}
  = process_tables self
  /\ excel_data (snd (process_tables self)) = excel_data self
  /\ process_tables (snd (process_tables self)) = process_tables self.
Proof.
  rewrite !process_tables_run. simpl. repeat split.
Qed.

(** ** What [clean_table] leaves *)

Section CleanResultFacts.

Context {PV : PyValues}.
Implicit Types (df : DataFrame).

Lemma length_select_le {A : Type} (m : list bool) : forall (l : list A),
  length (select m l) <= length l.
Proof.
  induction m as [|b m IH]; intros [|x l]; simpl; try lia.
  specialize (IH l). destruct b; simpl; lia.
Qed.

Lemma index_clean_table df :
  wf_frame df ->
  index (clean_table df) = seq 0 (length (data (clean_table df))).
Proof.
  intros Hwf.
  pose proof (wf_dropna_cols _ (wf_dropna_rows df Hwf)) as [Hi _].
  unfold clean_table, reset_index. cbn [index data]. now rewrite Hi.
Qed.

Lemma Forall_true_nth (m : list bool) (j : nat) :
  Forall (fun b => b = true) m -> j < length m -> nth j m false = true.
Proof.
  intros H Hj. exact (proj1 (Forall_forall _ _) H _ (nth_In _ _ Hj)).
Qed.

End CleanResultFacts.

(** X7. A cleaned frame has no row and no column that is entirely empty. *)
Theorem clean_table_no_empty_row_or_column
    (PV : PyValues) (df : DataFrame) :
  wf_frame df ->
  Forall (fun row => existsb notna row = true) (data (clean_table df))
  /\ (forall j, j < length (columns (clean_table df)) ->
        exists row, In row (data (clean_table df))
                    /\ notna (nth j row CEmpty) = true).
Proof.
  intros Hwf. split; [exact (clean_rows_have_values df Hwf)|].
  intros j Hj.
  pose proof (clean_cols_have_values df Hwf) as Hc. cbv zeta in Hc.
  pose proof (wf_dropna_cols _ (wf_dropna_rows df Hwf)) as [_ Hr].
  change (columns (clean_table df))
    with (columns (dropna_cols (dropna_rows df))) in Hj.
  change (data (clean_table df)) with (data (dropna_cols (dropna_rows df))).
  set (df' := dropna_cols (dropna_rows df)) in *.
  assert (Hn : nth j (notna_any_cols (length (columns df')) (data df')) false
               = true).
  { apply Forall_true_nth; [exact Hc|].
    now rewrite (length_notna_any_cols _ _ Hr). }
  rewrite (nth_notna_any_cols _ _ j Hr) in Hn.
  apply existsb_exists in Hn as (row & Hin & Hv). now exists row.
Qed.

Lemma clean_table_no_empty_row_or_column_witness :
  wf_frame Demo.sparse
  /\ Forall (fun row => existsb notna row = true)
       (data (clean_table Demo.sparse)).
Proof.
  assert (Hwf : wf_frame Demo.sparse)
    by (split; [reflexivity | repeat constructor]).
  split; [exact Hwf|].
  exact (proj1 (clean_table_no_empty_row_or_column RefValues Demo.sparse Hwf)).
Defined.

(** X8. A cleaned frame is rectangular with one label per row, its row
    labels are 0, 1, ..., and it has no more rows and no more columns than
    the frame it comes from. *)
Theorem clean_table_shape (PV : PyValues) (df : DataFrame) :
  wf_frame df ->
  wf_frame (clean_table df)
  /\ index (clean_table df) = seq 0 (length (data (clean_table df)))
  /\ length (data (clean_table df)) <= length (data df)
  /\ length (columns (clean_table df)) <= length (columns df).
Proof.
  intros Hwf. split; [now apply wf_clean_table|].
  split; [now apply index_clean_table|].
  unfold clean_table, reset_index, dropna_cols, dropna_rows.
  cbn [index columns data]. rewrite length_map. split; apply length_select_le.
Qed.

Lemma clean_table_shape_witness :
  wf_frame Demo.sparse
  /\ index (clean_table Demo.sparse) = [0; 1]
  /\ length (data (clean_table Demo.sparse)) <= 3
  /\ length (columns (clean_table Demo.sparse)) <= 3.
Proof.
  assert (Hwf : wf_frame Demo.sparse)
    by (split; [reflexivity | repeat constructor]).
  split; [exact Hwf|].
  destruct (clean_table_shape RefValues Demo.sparse Hwf)
    as (_ & Hi & Hr & Hc).
  split; [exact Hi|]. split; [exact Hr | exact Hc].
Defined.

(** X9. A frame in which every row and every column holds a value comes
    back from [clean_table] with its cells and column labels as they were;
    only the row labels are renumbered. *)
Theorem clean_table_keeps_full_frame (PV : PyValues) (df : DataFrame) :
  wf_frame df ->
  Forall (fun row => existsb notna row = true) (data df) ->
  (forall j, j < length (columns df) ->
     exists row, In row (data df) /\ notna (nth j row CEmpty) = true) ->
  clean_table df = reset_index df.
Proof.
  intros Hwf Hrows Hcols. unfold clean_table.
  rewrite (dropna_rows_id df (proj1 Hwf) Hrows).
  rewrite (dropna_cols_id df Hwf); [reflexivity|].
  destruct Hwf as [_ Hr].
  apply Forall_forall. intros b Hb.
  destruct (In_nth _ _ false Hb) as (j & Hj & <-).
  rewrite (length_notna_any_cols _ _ Hr) in Hj.
  rewrite (nth_notna_any_cols _ _ j Hr).
  apply existsb_exists. destruct (Hcols j Hj) as (row & Hin & Hv).
  now exists row.
Qed.

Lemma clean_table_keeps_full_frame_witness :
  wf_frame Demo.inputs_table
  /\ clean_table Demo.inputs_table = Demo.inputs_table.
Proof.
  assert (Hwf : wf_frame Demo.inputs_table)
    by (split; [reflexivity | repeat constructor]).
  split; [exact Hwf|].
  refine (eq_trans
            (clean_table_keeps_full_frame RefValues Demo.inputs_table
               Hwf _ _) eq_refl).
  - repeat constructor.
  - intros j Hj. simpl in Hj.
    destruct j as [|[|[|j]]]; [| | |lia].
    + exists [CText "INPUTS"; CEmpty; CEmpty]. split; [now left|reflexivity].
    + exists [Demo.num 2024; CText " 1,200.50 "; Demo.num 10].
      split; [right; now left | reflexivity].
    + exists [Demo.num 2024; CText " 1,200.50 "; Demo.num 10].
      split; [right; now left | reflexivity].
Defined.

(** ** The tables of the store *)

Section StoreTableFacts.

Context {PV : PyValues}.

Lemma sheet_tables_are_cleaned (g : Grid) (sheet_name : string) :
  rectangular g ->
  Forall (fun t => exists raw, wf_frame raw /\ snd t = clean_table raw)
    (spec_sheet_tables sheet_name g).
Proof.
  intros Hg. unfold spec_sheet_tables.
  pose proof (segments_wf g (spec_markers g) Hg (markers_are_markers g))
    as Hseg.
  destruct (spec_markers g) as [|mk ms].
  - constructor; [|constructor]. exists (read_excel g).
    split; [now apply wf_read_excel | reflexivity].
  - apply Forall_map. eapply Forall_impl; [|exact Hseg].
    intros t Ht. exists (snd t). now split.
Qed.

End StoreTableFacts.

(** X10. When the sheets of the workbook are rectangular, every table in
    the store is a cleaned frame: rectangular with one label per row, row
    labels 0, 1, ..., and no row that is entirely empty. *)
Theorem store_tables_are_clean
    (PV : PyValues) (workbook : list (string * Grid))
    (name : string) (df : DataFrame) :
  Forall (fun it => rectangular (snd it)) workbook ->
  PyDict.get name (tables (snd (new_processor workbook))) = Some df ->
  wf_frame df
  /\ index df = seq 0 (length (data df))
  /\ Forall (fun row => existsb notna row = true) (data df).
Proof.
  intros Hr Hg.
  destruct (store_provenance workbook name df Hg)
    as (sheet_name & g & Hin & Ht).
  pose proof (proj1 (Forall_forall _ _) Hr _ Hin) as Hg'. simpl in Hg'.
  destruct (proj1 (Forall_forall _ _)
              (sheet_tables_are_cleaned g sheet_name Hg') _ Ht)
    as (raw & Hraw & E).
  simpl in E. subst df. split; [now apply wf_clean_table|].
  split; [now apply index_clean_table|].
  exact (clean_rows_have_values raw Hraw).
Qed.

Lemma store_tables_are_clean_witness :
  Forall (fun it => rectangular (snd it)) Demo.workbook
  /\ PyDict.get "INPUTS" (tables (snd (new_processor Demo.workbook)))
     = Some Demo.inputs_table
  /\ wf_frame Demo.inputs_table.
Proof.
  assert (Hr : Forall (fun it => rectangular (snd it)) Demo.workbook)
    by (repeat constructor).
  assert (Hg : PyDict.get "INPUTS" (tables (snd (new_processor Demo.workbook)))
               = Some Demo.inputs_table) by reflexivity.
  split; [exact Hr|]. split; [exact Hg|].
  exact (proj1 (store_tables_are_clean RefValues Demo.workbook "INPUTS"
                  Demo.inputs_table Hr Hg)).
Defined.

(** ** Start-up and endpoints *)

Section ApplicationFacts.

Context {PV : PyValues}.

Lemma get_table_names_run (self : ExcelProcessor) :
  get_table_names self = (inr (PyDict.keys (tables self)), self).
Proof. reflexivity. Qed.

Lemma get_table_row_names_cases (self : ExcelProcessor) (table_name : string) :
  (exists row_names,
     get_table_row_names table_name self = (inr row_names, self))
  \/ get_table_row_names table_name self
     = (inl (table_not_found table_name), self).
Proof.
  unfold get_table_row_names, bind, get_self, ret, raise.
  destruct (PyDict.get table_name (tables self)) as [df|]; [left | now right].
  destruct (df_empty df); eexists; reflexivity.
Qed.

Lemma calculate_row_sum_cases (self : ExcelProcessor)
      (table_name row_name : string) :
  (exists x, calculate_row_sum table_name row_name self = (inr x, self))
  \/ calculate_row_sum table_name row_name self
     = (inl (table_not_found table_name), self)
  \/ calculate_row_sum table_name row_name self
     = (inl (row_not_found row_name table_name), self).
Proof.
  unfold calculate_row_sum, bind, get_self, ret, raise.
  destruct (PyDict.get table_name (tables self)) as [df|];
    [|right; now left].
  destruct (find_target_row (iterrows df) row_name);
    [left; eexists; reflexivity | right; now right].
Qed.

Lemma startup_event_sheets (workbook : list (string * Grid)) :
  startup_event (Sheets workbook) = Some (snd (new_processor workbook)).
Proof.
  unfold startup_event, ExcelProcessor_new.
  now rewrite new_processor_run.
Qed.

End ApplicationFacts.

(** X11. When the workbook file is missing or cannot be read, start-up
    leaves the processor unset; from then on the three query endpoints
    raise the 500 "Excel processor not initialized" and the health check
    reports that the processor is not initialized. *)
Theorem startup_failure_degrades
    (PV : PyValues) (resource : Resource) (table_name row_name : string) :
  (forall workbook, resource <> Sheets workbook) ->
  startup_event resource = None
  /\ list_tables (startup_event resource)
     = (inl (HTTPException 500 "Excel processor not initialized"), None)
  /\ get_table_details table_name (startup_event resource)
     = (inl (HTTPException 500 "Excel processor not initialized"), None)
  /\ row_sum table_name row_name (startup_event resource)
     = (inl (HTTPException 500 "Excel processor not initialized"), None)
  /\ health_check (startup_event resource)
     = (inr (HealthResponse "healthy" false), None).
Proof.
  intros H.
  assert (E : startup_event resource = None).
  { destruct resource as [|message|workbook]; try reflexivity.
    now destruct (H workbook). }
  rewrite E. repeat split.
Qed.

Lemma startup_failure_degrades_witness :
  (forall workbook, NoFile (PV := RefValues) <> Sheets workbook)
  /\ row_sum "INPUTS" "2024" (startup_event (NoFile (PV := RefValues)))
     = (inl (HTTPException 500 "Excel processor not initialized"), None).
Proof.
  assert (H : forall workbook, NoFile (PV := RefValues) <> Sheets workbook)
    by (intros workbook; discriminate).
  split; [exact H|].
  exact (proj1 (proj2 (proj2 (proj2
           (startup_failure_degrades RefValues NoFile "INPUTS" "2024" H))))).
Defined.

(** X12. Start-up on a workbook that was read always sets the processor.
    From then on the health check reports it, [/list_tables] returns the
    names of the store, and the two other query endpoints either return
    their body or raise a 404; none of them raises a 500. *)
Theorem startup_success_serves
    (PV : PyValues) (workbook : list (string * Grid))
    (table_name row_name : string) :
  startup_event (Sheets workbook) = Some (snd (new_processor workbook))
  /\ health_check (startup_event (Sheets workbook))
     = (inr (HealthResponse "healthy" true), startup_event (Sheets workbook))
  /\ list_tables (startup_event (Sheets workbook))
     = (inr (TablesResponse
               (PyDict.keys (tables (snd (new_processor workbook))))),
        startup_event (Sheets workbook))
  /\ ((exists row_names,
         fst (get_table_details table_name (startup_event (Sheets workbook)))
         = inr (TableDetailsResponse table_name row_names))
      \/ exists detail,
           fst (get_table_details table_name (startup_event (Sheets workbook)))
           = inl (HTTPException 404 detail))
  /\ ((exists total_sum,
         fst (row_sum table_name row_name (startup_event (Sheets workbook)))
         = inr (RowSumResponse table_name row_name total_sum))
      \/ exists detail,
           fst (row_sum table_name row_name (startup_event (Sheets workbook)))
           = inl (HTTPException 404 detail)).
Proof.
  rewrite startup_event_sheets.
  set (processor := snd (new_processor workbook)).
  split; [reflexivity|]. split; [reflexivity|]. split; [reflexivity|].
  split.
  - unfold get_table_details.
    destruct (get_table_row_names_cases processor table_name)
      as [[row_names ->]| ->]; [left | right]; eexists; reflexivity.
  - unfold row_sum.
    destruct (calculate_row_sum_cases processor table_name row_name)
      as [[x ->]|[-> | ->]]; [left | right | right]; eexists; reflexivity.
Qed.

(** X13. No endpoint and no query method changes the state it is given:
    the processor, with its sheets and its store, is the same after every
    request, whether the request succeeds or fails. *)
Theorem requests_leave_state_unchanged
    (PV : PyValues) (app : App) (self : ExcelProcessor)
    (table_name row_name : string) :
  snd (get_table_names self) = self
  /\ snd (get_table_row_names table_name self) = self
  /\ snd (calculate_row_sum table_name row_name self) = self
  /\ snd (root app) = app
  /\ snd (list_tables app) = app
  /\ snd (get_table_details table_name app) = app
  /\ snd (row_sum table_name row_name app) = app
  /\ snd (health_check app) = app.
Proof.
  assert (Hr : forall p, snd (get_table_row_names table_name p) = p).
  { intros p. destruct (get_table_row_names_cases p table_name)
      as [[row_names ->]| ->]; reflexivity. }
  assert (Hs : forall p, snd (calculate_row_sum table_name row_name p) = p).
  { intros p. destruct (calculate_row_sum_cases p table_name row_name)
      as [[x ->]|[-> | ->]]; reflexivity. }
  split; [reflexivity|]. split; [apply Hr|]. split; [apply Hs|].
  split; [reflexivity|]. split; [now destruct app|].
  split; [|split; [|reflexivity]].
  - unfold get_table_details. destruct app as [p|]; [|reflexivity].
    destruct (get_table_row_names_cases p table_name)
      as [[row_names ->]| ->]; reflexivity.
  - unfold row_sum. destruct app as [p|]; [|reflexivity].
    destruct (calculate_row_sum_cases p table_name row_name)
      as [[x ->]|[-> | ->]]; reflexivity.
Qed.

(** ** Rows above the first marker *)

Section LeadingRowsFacts.

Context {PV : PyValues}.
Implicit Types (g above : Grid).

Lemma markers_from_no_marker g : forall (len k : nat),
  (forall i, k <= i < k + len -> spec_is_marker (nth i g []) = false) ->
  markers_from g k len = [].
Proof.
  induction len as [|len IH]; intros k H; [reflexivity|].
  rewrite markers_from_step, (H k) by lia. simpl.
  apply IH. intros i Hi. apply H. lia.
Qed.

Lemma markers_from_app g (k a b : nat) :
  markers_from g k (a + b) = markers_from g k a ++ markers_from g (k + a) b.
Proof.
  unfold markers_from. now rewrite seq_app, filter_app, map_app.
Qed.

Lemma markers_from_shift above g : forall (len a : nat),
  markers_from (above ++ g) (length above + a) len
  = map (shift_marker (length above)) (markers_from g a len).
Proof.
  induction len as [|len IH]; intros a; [reflexivity|].
  rewrite !markers_from_step, map_app, app_nth2_plus.
  rewrite <- Nat.add_succ_r, IH. f_equal.
  now destruct (spec_is_marker (nth a g [])).
Qed.

Lemma markers_below above g :
  Forall (fun row => spec_is_marker row = false) above ->
  spec_markers (above ++ g)
  = map (shift_marker (length above)) (spec_markers g).
Proof.
  intros H. change (spec_markers (above ++ g))
    with (markers_from (above ++ g) 0 (length (above ++ g))).
  rewrite length_app, markers_from_app. simpl.
  rewrite markers_from_no_marker.
  - rewrite <- (Nat.add_0_r (length above)) at 1.
    apply markers_from_shift.
  - intros i Hi. rewrite app_nth1 by lia.
    apply (proj1 (Forall_forall _ _) H). apply nth_In. lia.
Qed.

Lemma map_seq_shift {A : Type} (f : nat -> A) (k : nat) : forall len j,
  map f (seq (k + j) len) = map (fun i => f (k + i)) (seq j len).
Proof.
  induction len as [|len IH]; intros j; simpl; [reflexivity|].
  f_equal. rewrite <- Nat.add_succ_r. apply IH.
Qed.

(** [clean_table] looks at the row labels only for their number. *)
Lemma clean_table_labels_irrelevant (a b : DataFrame) :
  columns a = columns b -> data a = data b ->
  length (index a) = length (index b) ->
  clean_table a = clean_table b.
Proof.
  destruct a as [ia ca da], b as [ib cb db]. simpl.
  intros -> -> Hl. unfold clean_table, reset_index, dropna_cols, dropna_rows.
  cbn [index columns data]. f_equal. f_equal.
  now apply length_select_mask.
Qed.

Lemma clean_shifted_subgrid above g (j stop : nat) :
  length (hd [] (above ++ g)) = length (hd [] g) ->
  clean_table (spec_subgrid (above ++ g) (length above + j)
                 (length above + stop))
  = clean_table (spec_subgrid g j stop).
Proof.
  intros Hw. apply clean_table_labels_irrelevant; simpl.
  - now rewrite Hw.
  - replace (length above + stop - (length above + j)) with (stop - j) by lia.
    rewrite map_seq_shift. apply map_ext. intros i. apply app_nth2_plus.
  - rewrite !length_seq. lia.
Qed.

Lemma segments_below above g : forall (ms : list (nat * string)),
  length (hd [] (above ++ g)) = length (hd [] g) ->
  map cleaned
    (spec_segments (above ++ g) (map (shift_marker (length above)) ms))
  = map cleaned (spec_segments g ms).
Proof.
  intros ms Hw. induction ms as [|[j name] ms IH]; [reflexivity|].
  cbn [map spec_segments shift_marker fst snd]. rewrite IH. f_equal.
  unfold cleaned. cbn [fst snd]. f_equal.
  destruct ms as [|[i name'] ms']; cbn [map shift_marker fst snd].
  - rewrite length_app. now apply clean_shifted_subgrid.
  - now apply clean_shifted_subgrid.
Qed.

Lemma markers_exist g :
  Exists (fun row => spec_is_marker row = true) g -> spec_markers g <> [].
Proof.
  intros H. apply Exists_exists in H as (row & Hin & Hm).
  destruct (In_nth g row [] Hin) as (i & Hi & E).
  assert (Hp : In (i, spec_marker_name (nth i g [])) (spec_markers g)).
  { unfold spec_markers. apply in_map_iff. exists i. split; [reflexivity|].
    apply filter_In. split; [apply in_seq; lia | now rewrite E]. }
  intros E0. now rewrite E0 in Hp.
Qed.

End LeadingRowsFacts.

(** X14. The rows of a sheet above its first marker row belong to no table:
    a rectangular sheet with marker rows gives the same tables with and
    without the rows above its first marker. *)
Theorem rows_above_first_marker_are_dropped
    (PV : PyValues) (above g : Grid) (sheet_name : string) :
  Forall (fun row => spec_is_marker row = false) above ->
  Exists (fun row => spec_is_marker row = true) g ->
  rectangular (above ++ g) ->
  identify_tables_in_sheet (read_excel (above ++ g)) sheet_name
  = identify_tables_in_sheet (read_excel g) sheet_name.
Proof.
  intros Ha Hg Hr.
  pose proof (markers_exist g Hg) as Hm.
  assert (Hw : length (hd [] (above ++ g)) = length (hd [] g)).
  { destruct g as [|row g]; [inversion Hg|]. simpl.
    symmetry. apply (proj1 (Forall_forall _ _) Hr).
    apply in_or_app. right. now left. }
  rewrite !identify_tables_in_sheet_spec. unfold spec_sheet_tables.
  rewrite (markers_below above g Ha).
  destruct (spec_markers g) as [|mk ms]; [congruence|].
  cbn [map]. now rewrite <- (segments_below above g (mk :: ms) Hw).
Qed.

Lemma rows_above_first_marker_are_dropped_witness :
  Forall (fun row => spec_is_marker row = false)
    [[Demo.num 1; CText "note"; CEmpty]]
  /\ Exists (fun row => spec_is_marker row = true) Demo.budget
  /\ rectangular ([[Demo.num 1; CText "note"; CEmpty]] ++ Demo.budget)
  /\ identify_tables_in_sheet
       (read_excel ([[Demo.num 1; CText "note"; CEmpty]] ++ Demo.budget))
       "Budget"
     = identify_tables_in_sheet (read_excel Demo.budget) "Budget".
Proof.
  assert (Ha : Forall (fun row => spec_is_marker row = false)
                 [[Demo.num 1; CText "note"; CEmpty]])
    by (repeat constructor).
  assert (Hg : Exists (fun row => spec_is_marker row = true) Demo.budget)
    by (left; reflexivity).
  assert (Hr : rectangular
                 ([[Demo.num 1; CText "note"; CEmpty]] ++ Demo.budget))
    by (repeat constructor).
  split; [exact Ha|]. split; [exact Hg|]. split; [exact Hr|].
  exact (rows_above_first_marker_are_dropped RefValues
           [[Demo.num 1; CText "note"; CEmpty]] Demo.budget "Budget"
           Ha Hg Hr).
Defined.

(** ** The header row of a table *)

Section HeaderFacts.

Context {PV : PyValues}.
Implicit Types (g : Grid).

Lemma markers_from_none g : forall (len k : nat),
  markers_from g k len = [] ->
  forall i, k <= i < k + len -> spec_is_marker (nth i g []) = false.
Proof.
  induction len as [|len IH]; intros k E i Hi; [lia|].
  rewrite markers_from_step in E.
  destruct (spec_is_marker (nth k g [])) eqn:Ek; [discriminate|].
  destruct (Nat.eq_dec i k) as [->|Hne]; [exact Ek|].
  apply (IH (S k) E). lia.
Qed.

Lemma markers_from_first g : forall (len k j : nat) (name : string)
    (rest : list (nat * string)),
  markers_from g k len = (j, name) :: rest ->
  k <= j < k + len
  /\ spec_is_marker (nth j g []) = true
  /\ name = spec_marker_name (nth j g [])
  /\ (forall i, k <= i < j -> spec_is_marker (nth i g []) = false)
  /\ rest = markers_from g (S j) (k + len - S j).
Proof.
  induction len as [|len IH]; intros k j name rest E; [discriminate|].
  rewrite markers_from_step in E.
  destruct (spec_is_marker (nth k g [])) eqn:Ek.
  - injection E as <- <- <-.
    replace (k + S len - S k) with len by lia.
    repeat split; try lia; try assumption.
  - destruct (IH (S k) j name rest E) as (Hj & Hm & Hn & Hb & Hr).
    replace (k + S len - S j) with (S k + len - S j) by lia.
    repeat split; try lia; try assumption.
    intros i Hi. destruct (Nat.eq_dec i k) as [->|Hne]; [exact Ek|].
    apply Hb. lia.
Qed.

(** Each table runs from its marker row to the next one, over rows that are
    not markers. *)
Lemma segments_shape g : forall (n len k : nat),
  len <= n -> k + len = length g ->
  Forall
    (fun t =>
       exists j stop,
         j < stop /\ stop <= length g
         /\ snd t = spec_subgrid g j stop
         /\ spec_is_marker (nth j g []) = true
         /\ fst t = spec_marker_name (nth j g [])
         /\ forall i, j < i < stop -> spec_is_marker (nth i g []) = false)
    (spec_segments g (markers_from g k len)).
Proof.
  induction n as [|n IH]; intros len k Hn Hk.
  - replace len with 0 by lia. constructor.
  - destruct (markers_from g k len) as [|[j name] rest] eqn:E;
      [constructor|].
    destruct (markers_from_first g len k j name rest E)
      as (Hj & Hm & Hname & _ & Hrest).
    set (len' := k + len - S j) in *.
    cbn [spec_segments]. constructor.
    + cbn [fst snd].
      destruct rest as [|[i name'] rest'].
      * exists j, (length g).
        split; [lia|]. split; [lia|]. split; [reflexivity|].
        split; [exact Hm|]. split; [exact Hname|].
        intros i Hi. apply (markers_from_none g len' (S j)); [now symmetry|].
        unfold len'. lia.
      * symmetry in Hrest.
        destruct (markers_from_first g len' (S j) i name' rest' Hrest)
          as (Hi & _ & _ & Hb & _).
        exists j, i. unfold len' in Hi.
        split; [lia|]. split; [lia|]. split; [reflexivity|].
        split; [exact Hm|]. split; [exact Hname|].
        intros x Hx. apply Hb. lia.
    + rewrite Hrest. apply IH; unfold len'; lia.
Qed.

Lemma is_marker_head (c : Cell) (a b : Row) :
  spec_is_marker (c :: a) = spec_is_marker (c :: b).
Proof. reflexivity. Qed.

Lemma is_marker_select_head (m : list bool) (row : Row) :
  spec_is_marker (select (true :: m) row) = spec_is_marker row.
Proof. destruct row as [|c row]; [reflexivity | apply is_marker_head]. Qed.

(** Cleaning a frame whose first row starts with a value keeps that row
    first and keeps the first cell of every row. *)
Lemma clean_data_with_header (df : DataFrame) (c : Cell) (cells : Row)
      (others : Grid) :
  wf_frame df ->
  data df = (c :: cells) :: others ->
  notna c = true ->
  exists m,
    data (clean_table df)
    = (c :: select m cells)
      :: map (select (true :: m)) (filter (existsb notna) others).
Proof.
  intros Hwf Hd Hc.
  pose proof (wf_dropna_rows df Hwf) as [_ Hr].
  assert (HR : data (dropna_rows df)
               = (c :: cells) :: filter (existsb notna) others).
  { rewrite data_dropna_rows, Hd. simpl. now rewrite Hc. }
  unfold clean_table, reset_index, dropna_cols. cbn [data].
  rewrite HR in *. change (columns (dropna_rows df)) with (columns df) in *.
  inversion Hr as [|? ? Hlen Hr']; subst.
  pose proof (length_notna_any_cols _ _ Hr') as Hacc.
  cbn [notna_any_cols fold_right].
  fold (notna_any_cols (length (columns df))
          (filter (existsb notna) others)).
  destruct (notna_any_cols (length (columns df))
              (filter (existsb notna) others)) as [|b acc];
    [simpl in Hacc, Hlen; lia|].
  change (list_or (map notna (c :: cells)) (b :: acc))
    with ((notna c || b) :: list_or (map notna cells) acc).
  rewrite Hc. simpl. eexists. reflexivity.
Qed.

Lemma clean_marker_subgrid g (j stop : nat) :
  rectangular g ->
  j < stop -> stop <= length g ->
  spec_is_marker (nth j g []) = true ->
  (forall i, j < i < stop -> spec_is_marker (nth i g []) = false) ->
  exists s cells rows,
    data (clean_table (spec_subgrid g j stop)) = (CText s :: cells) :: rows
    /\ PyStr.strip s = spec_marker_name (nth j g [])
    /\ Forall (fun row => spec_is_marker row = false) rows.
Proof.
  intros Hg Hj Hs Hm Hb.
  pose proof (wf_spec_subgrid g j stop Hg Hs) as Hwf.
  destruct (nth j g []) as [|[|s|x|v] cells] eqn:Eh; try discriminate.
  assert (Hd : data (spec_subgrid g j stop)
               = (CText s :: cells)
                 :: map (fun i => nth i g []) (seq (S j) (stop - S j))).
  { simpl. replace (stop - j) with (S (stop - S j)) by lia.
    simpl. now rewrite Eh. }
  destruct (clean_data_with_header _ _ _ _ Hwf Hd eq_refl) as [m Hc].
  exists s, (select m cells). eexists. split; [exact Hc|].
  split; [reflexivity|].
  apply Forall_forall. intros row Hrow.
  apply in_map_iff in Hrow as (r & <- & Hr).
  rewrite is_marker_select_head.
  apply filter_In in Hr as [Hr _].
  apply in_map_iff in Hr as (i & <- & Hi). apply in_seq in Hi.
  apply Hb. lia.
Qed.

End HeaderFacts.

(** X15. In a rectangular sheet with marker rows, every table starts with
    its marker row: the first cell of its first row is the marker text,
    which trimmed is the name of the table, and no later row of the table
    is a marker row. *)
Theorem marker_table_starts_with_its_header
    (PV : PyValues) (g : Grid) (sheet_name name : string) (t : DataFrame) :
  rectangular g ->
  Exists (fun row => spec_is_marker row = true) g ->
  PyDict.get name (identify_tables_in_sheet (read_excel g) sheet_name)
  = Some t ->
  exists s cells rows,
    data t = (CText s :: cells) :: rows
    /\ PyStr.strip s = name
    /\ Forall (fun row => spec_is_marker row = false) rows.
Proof.
  intros Hg Hex Hget.
  pose proof (markers_exist g Hex) as Hm.
  rewrite identify_tables_in_sheet_spec in Hget.
  unfold dict_of_writes in Hget.
  fold (PyDict.write_all (spec_sheet_tables sheet_name g)
          (@PyDict.empty DataFrame)) in Hget.
  rewrite PyDictFacts.get_write_all in Hget.
  destruct (PyDict.last_write name (spec_sheet_tables sheet_name g))
    as [v|] eqn:El; [|discriminate].
  injection Hget as ->. apply last_write_In in El.
  unfold spec_sheet_tables in El.
  pose proof (segments_shape g (length g) (length g) 0 (le_n _) eq_refl)
    as Hshape.
  change (markers_from g 0 (length g)) with (spec_markers g) in Hshape.
  destruct (spec_markers g) as [|mk ms]; [congruence|].
  apply in_map_iff in El as ([name' sub] & E & Hin).
  unfold cleaned in E. cbn [fst snd] in E. injection E as -> <-.
  destruct (proj1 (Forall_forall _ _) Hshape _ Hin)
    as (j & stop & Hj & Hs & Esub & Hmark & Ename & Hb).
  cbn [fst snd] in Esub, Ename. subst sub name.
  now apply clean_marker_subgrid.
Qed.

Lemma marker_table_starts_with_its_header_witness :
  rectangular Demo.budget
  /\ Exists (fun row => spec_is_marker row = true) Demo.budget
  /\ PyDict.get "Revenue"
       (identify_tables_in_sheet (read_excel Demo.budget) "Budget")
     = Some {| index := [0]; columns := [0; 1; 2];
               data := [[CText " Revenue "; CText "100"; CText "200"]] |}
  /\ PyStr.strip " Revenue " = "Revenue".
Proof.
  assert (Hg : rectangular Demo.budget) by (repeat constructor).
  assert (Hex : Exists (fun row => spec_is_marker row = true) Demo.budget)
    by (left; reflexivity).
  assert (Hget : PyDict.get "Revenue"
                   (identify_tables_in_sheet (read_excel Demo.budget) "Budget")
                 = Some {| index := [0]; columns := [0; 1; 2];
                           data := [[CText " Revenue "; CText "100";
                                     CText "200"]] |}) by reflexivity.
  split; [exact Hg|]. split; [exact Hex|]. split; [exact Hget|].
  destruct (marker_table_starts_with_its_header RefValues Demo.budget
              "Budget" "Revenue" _ Hg Hex Hget)
    as (s & cells & rows & Hd & Hs & _).
  simpl in Hd. injection Hd as <- _ _. exact Hs.
Defined.
